(** * hkjc_scraper: a shallow embedding of the extraction and resilience core

    The development follows the Python sources of the [hkjc_scraper]
    package module by module:

    - [utils.py]        text normalisation, retry with backoff, checkpoints
    - [selectors.py]    fuzzy header matching, table location, column maps
    - [models.py]       the pydantic record models and their coercion hook
    - [horse_detail.py] past-run and injury extraction
    - [main.py]         the command-line driver and its exit status

    Python [str] values are sequences of Unicode code points and are
    modelled as [list N]; dictionaries are stdpp finite maps. *)

From Stdlib Require Import ZArith NArith Ascii String DecimalString.
From Corelib Require Import PrimFloat.
From stdpp Require Import gmap list fin_maps.

#[local] Set Warnings "-register-all".
#[local] Open Scope N_scope.

(** ** Python strings *)

Abbreviation pystr := (list N).

(** Source literals are written as UTF-8 text and decoded to code points. *)
Fixpoint utf8_decode (bs : list N) : pystr :=
  match bs with
  | [] => []
  | b0 :: t0 =>
    if b0 <? 0x80 then b0 :: utf8_decode t0
    else if b0 <? 0xE0 then
      match t0 with
      | b1 :: t1 => ((b0 - 0xC0) * 0x40 + (b1 - 0x80)) :: utf8_decode t1
      | _ => []
      end
    else if b0 <? 0xF0 then
      match t0 with
      | b1 :: b2 :: t2 =>
        ((b0 - 0xE0) * 0x1000 + (b1 - 0x80) * 0x40 + (b2 - 0x80)) :: utf8_decode t2
      | _ => []
      end
    else
      match t0 with
      | b1 :: b2 :: b3 :: t3 =>
        ((b0 - 0xF0) * 0x40000 + (b1 - 0x80) * 0x1000 + (b2 - 0x80) * 0x40 + (b3 - 0x80))
          :: utf8_decode t3
      | _ => []
      end
  end.

Definition u (s : string) : pystr :=
  utf8_decode (List.map N_of_ascii (list_ascii_of_string s)).

(** [needle in hay] on [str]: contiguous substring. *)
Fixpoint startswith (p s : pystr) : bool :=
  match p, s with
  | [], _ => true
  | a :: p', b :: s' => (a =? b) && startswith p' s'
  | _ :: _, [] => false
  end.

Fixpoint str_in (needle hay : pystr) : bool :=
  startswith needle hay ||
  match hay with
  | [] => false
  | _ :: t => str_in needle t
  end.

(** Truthiness of a [str]. *)
Definition truthy (s : pystr) : bool :=
  match s with [] => false | _ :: _ => true end.

(** ** utils.py: normalize_text *)

(** [str.isspace], which is also what [\s] matches in a [str] pattern. *)
Definition isspace (c : N) : bool :=
  ((0x09 <=? c) && (c <=? 0x0D)) || ((0x1C <=? c) && (c <=? 0x20)) ||
  (c =? 0x85) || (c =? 0xA0) || (c =? 0x1680) ||
  ((0x2000 <=? c) && (c <=? 0x200A)) ||
  (c =? 0x2028) || (c =? 0x2029) || (c =? 0x202F) || (c =? 0x205F) ||
  (c =? 0x3000).

(** [text.replace(X, " ")] where the literal [X] of the source file is the
    three code points U+00E3 U+20AC U+20AC. *)
Fixpoint replace_fullwidth (text : pystr) : pystr :=
  match text with
  | [] => []
  | a :: t =>
    match t with
    | b :: c :: rest =>
      if (a =? 0xE3) && (b =? 0x20AC) && (c =? 0x20AC)
      then 0x20 :: replace_fullwidth rest
      else a :: replace_fullwidth t
    | _ => a :: replace_fullwidth t
    end
  end.

(** [re.sub(r"\s+", " ", text)]; [in_run] records that the previous
    character already belonged to the whitespace run being replaced. *)
Fixpoint collapse_ws (in_run : bool) (text : pystr) : pystr :=
  match text with
  | [] => []
  | c :: t =>
    if isspace c
    then (if in_run then collapse_ws true t else 0x20 :: collapse_ws true t)
    else c :: collapse_ws false t
  end.

Fixpoint lstrip (text : pystr) : pystr :=
  match text with
  | [] => []
  | c :: t => if isspace c then lstrip t else text
  end.

Definition strip (text : pystr) : pystr :=
  List.rev (lstrip (List.rev (lstrip text))).

Definition normalize_text (text : pystr) : pystr :=
  if negb (truthy text) then []
  else strip (collapse_ws false (replace_fullwidth text)).

(** ** Exceptions and results *)

(** The exceptions the scraper meets.  [except Exception] catches the
    first constructor only; the other two derive from [BaseException]. *)
Inductive exn :=
| Exception (what : pystr)
| KeyboardInterrupt
| SystemExit (code : Z).

Definition is_Exception (e : exn) : bool :=
  match e with Exception _ => true | _ => false end.

(** [raise None] *)
Definition TypeError_raise_None : exn :=
  Exception (u "TypeError: exceptions must derive from BaseException").

(** [time.sleep] of a negative duration *)
Definition ValueError_sleep : exn :=
  Exception (u "ValueError: sleep length must be non-negative").

(** [delay_ms / 1000.0] for an integer beyond the range of a float *)
Definition OverflowError_sleep : exn :=
  Exception (u "OverflowError: int too large to convert to float").

Inductive outcome (A : Type) :=
| Returned (a : A)
| Raised (e : exn).
Arguments Returned {A} a.
Arguments Raised {A} e.

(** ** constants.py: get_config *)

(** The environment variables [get_config] reads, already parsed by [int];
    [None] when the variable is unset. *)
Record Environ := {
  MAX_RETRIES : option Z;
  RETRY_BASE_DELAY_MS : option Z;
  RETRY_MAX_DELAY_MS : option Z;
  CHECKPOINT_INTERVAL : option Z
}.

Record Config := {
  cfg_max_retries : Z;
  cfg_retry_base_delay_ms : Z;
  cfg_retry_max_delay_ms : Z;
  cfg_checkpoint_interval : Z
}.

Definition get_config (env : Environ) : Config :=
  {| cfg_max_retries := default 3%Z (MAX_RETRIES env);
     cfg_retry_base_delay_ms := default 1000%Z (RETRY_BASE_DELAY_MS env);
     cfg_retry_max_delay_ms := default 5000%Z (RETRY_MAX_DELAY_MS env);
     cfg_checkpoint_interval := default 2%Z (CHECKPOINT_INTERVAL env) |}.

Definition unset_environ : Environ :=
  {| MAX_RETRIES := None; RETRY_BASE_DELAY_MS := None;
     RETRY_MAX_DELAY_MS := None; CHECKPOINT_INTERVAL := None |}.

(** ** utils.py: retry_with_backoff *)

(** [x or d] for an [Optional[int]] argument: [None] and [0] are falsy. *)
Definition int_or (x : option Z) (d : Z) : Z :=
  match x with
  | Some v => if (v =? 0)%Z then d else v
  | None => d
  end.

Section Retry.

(** The world the operation, the random generator and the clock act on. *)
Context {W A : Type}.
Variable func : W -> outcome A * W.
(** [random.randint(a, b)] *)
Variable randint : Z -> Z -> W -> Z * W.
(** The two statements that follow the computation of [delay_ms], for a
    non-negative [delay_ms]: the warning, which formats [delay_ms], and
    [time.sleep(delay_ms / 1000.0)].  They raise when the interpreter
    refuses the delay: [OverflowError] for an integer too large to convert
    to a float or for a duration beyond what the clock accepts. *)
Variable sleep_ms : Z -> W -> outcome W.

(** What a run does, in order: calls of [func] with their outcome, and sleeps. *)
Inductive event :=
| EvCall (r : outcome A)
| EvSleep (delay_ms : Z).

(** The [for attempt in range(max_retries + 1)] loop followed by
    [raise last_exception]; [remaining] counts the iterations left.  An
    exception raised while backing off leaves the [except] block and the
    function; the trace records the sleeps that were completed. *)
Fixpoint retry_loop (remaining : nat) (attempt : Z)
    (max_retries base_delay_ms max_delay_ms : Z) (last_exception : option exn)
    (w : W) : outcome A * list event * W :=
  match remaining with
  | O => (Raised (default TypeError_raise_None last_exception), [], w)
  | S remaining' =>
    let '(r, w1) := func w in
    match r with
    | Returned a => (Returned a, [EvCall r], w1)
    | Raised e =>
      if is_Exception e then
        if (attempt <? max_retries)%Z then
          let '(jitter, w2) := randint 0%Z 1000%Z w1 in
          let delay_ms :=
            Z.min (base_delay_ms * 2 ^ attempt + jitter)%Z max_delay_ms in
          if (delay_ms <? 0)%Z then (Raised ValueError_sleep, [EvCall r], w2)
          else
            match sleep_ms delay_ms w2 with
            | Raised refused => (Raised refused, [EvCall r], w2)
            | Returned w3 =>
              let '(out, trace, w4) :=
                retry_loop remaining' (attempt + 1)%Z max_retries base_delay_ms
                           max_delay_ms (Some e) w3 in
              (out, EvCall r :: EvSleep delay_ms :: trace, w4)
            end
        else
          let '(out, trace, w3) :=
            retry_loop remaining' (attempt + 1)%Z max_retries base_delay_ms
                       max_delay_ms (Some e) w1 in
          (out, EvCall r :: trace, w3)
      else (Raised e, [EvCall r], w1)
    end
  end.

Definition retry_with_backoff (env : Environ)
    (max_retries base_delay_ms max_delay_ms : option Z) (w : W)
    : outcome A * list event * W :=
  let config := get_config env in
  let max_retries := int_or max_retries (cfg_max_retries config) in
  let base_delay_ms := int_or base_delay_ms (cfg_retry_base_delay_ms config) in
  let max_delay_ms := int_or max_delay_ms (cfg_retry_max_delay_ms config) in
  retry_loop (Z.to_nat (max_retries + 1)) 0%Z max_retries base_delay_ms
             max_delay_ms None w.

Definition calls (trace : list event) : nat :=
  length (List.filter (fun ev => match ev with EvCall _ => true | _ => false end) trace).

(** The shape of a run that starts at attempt number [attempt]: failed
    attempts, each followed by its backoff sleep, then one last call. *)
Inductive retry_run (max_attempts base_delay max_delay : Z)
    : Z -> list event -> outcome A -> Prop :=
| run_success attempt a :
    (attempt <= max_attempts)%Z ->
    retry_run max_attempts base_delay max_delay attempt
              [EvCall (Returned a)] (Returned a)
| run_exhausted e :
    is_Exception e = true ->
    retry_run max_attempts base_delay max_delay max_attempts
              [EvCall (Raised e)] (Raised e)
| run_uncaught attempt e :
    (attempt <= max_attempts)%Z ->
    is_Exception e = false ->
    retry_run max_attempts base_delay max_delay attempt
              [EvCall (Raised e)] (Raised e)
| run_retry attempt e jitter trace out :
    (attempt < max_attempts)%Z ->
    is_Exception e = true ->
    (0 <= jitter <= 1000)%Z ->
    retry_run max_attempts base_delay max_delay (attempt + 1)%Z trace out ->
    retry_run max_attempts base_delay max_delay attempt
              (EvCall (Raised e)
               :: EvSleep (Z.min (base_delay * 2 ^ attempt + jitter) max_delay)
               :: trace) out.

End Retry.

(** *** The settings of a call, as the specification words them *)

(** A configured value: the environment variable when it is set, the
    built-in value otherwise. *)
Definition configured (setting : option Z) (builtin : Z) : Z :=
  match setting with Some n => n | None => builtin end.

(** The value a call works with: the argument when it is given and is not
    zero, the configured value otherwise. *)
Definition effective_setting (argument setting : option Z) (builtin : Z) : Z :=
  match argument with
  | Some v => if decide (v = 0%Z) then configured setting builtin else v
  | None => configured setting builtin
  end.

(** *** A clock for the examples *)

(** It refuses the delays [time.sleep] cannot represent, [2 ^ 63]
    nanoseconds and more, and lets the others pass at once. *)
Definition bounded_clock {W : Type} (delay_ms : Z) (w : W) : outcome W :=
  if (delay_ms * 1000000 <? 2 ^ 63)%Z then Returned w
  else Raised OverflowError_sleep.

(** ** models.py *)

Record InjuryRecord := { date : pystr; description : pystr }.

Record PastRunRecord := {
  race_date : pystr;
  venue : pystr;
  distance : pystr;
  barrier : pystr;
  weight : pystr;
  jockey : pystr;
  position : pystr;
  time : pystr;
  equipment : pystr;
  rating : pystr;
  odds : pystr;
  track_condition : pystr;
  race_class : pystr;
  distance_to_winner : pystr;
  running_position : pystr;
  barrier_weight : pystr;
  trainer : pystr
}.

Inductive Model :=
| MInjuryRecord (r : InjuryRecord)
| MPastRunRecord (r : PastRunRecord).

(** The Python values that reach the models: JSON-like data and instances
    of the two record models. *)
Inductive PyVal :=
| PNone
| PStr (s : pystr)
| PInt (z : Z)
| PFloat (f : float)
| PBool (b : bool)
| PList (l : list PyVal)
| PDict (d : gmap (list N) PyVal)
| PModel (m : Model).

Abbreviation pydict := (gmap (list N) PyVal).

Record HorseRecord := {
  馬號 : pystr;
  馬匹ID : pystr;
  馬名 : pystr;
  馬匹編號 : pystr;
  最近6輪 : pystr;
  排位 : pystr;
  負磅 : pystr;
  騎師 : pystr;
  練馬師 : pystr;
  獨贏 : pystr;
  位置 : pystr;
  當前評分 : pystr;
  國際評分 : pystr;
  配備 : pystr;
  讓磅 : pystr;
  練馬師喜好 : pystr;
  馬齡 : pystr;
  傷病記錄 : list InjuryRecord;
  往績紀錄 : list PastRunRecord;
  馬匹基本資料 : pystr
}.

(** [ToplineData] declares the twenty fields of [HorseRecord], with the same
    types and defaults, followed by [detail_url : Optional[str]]. *)
Record ToplineData := {
  topline_fields : HorseRecord;
  detail_url : option pystr
}.

(** [str] of an [int]: its decimal digits. *)
Definition str_int (z : Z) : pystr :=
  List.map N_of_ascii (list_ascii_of_string (NilZero.string_of_int (Z.to_int z))).

Section Models.

(** [str] of the values whose text the interpreter or pydantic produces:
    floats, model instances and containers. *)
Variable str_other : PyVal -> pystr.

Definition py_str (v : PyVal) : pystr :=
  match v with
  | PNone => u "None"
  | PStr s => s
  | PInt z => str_int z
  | PBool b => if b then u "True" else u "False"
  | _ => str_other v
  end.

(** The [field_validator("*", mode="before")] hook of both record models. *)
Definition convert_to_string (v : PyVal) : PyVal :=
  match v with
  | PNone => PStr []
  | PList _ | PDict _ => v
  | _ => PStr (py_str v)
  end.

(** *** Model construction, as pydantic performs it

    A keyword that is no field of the model is ignored; a field without
    keyword takes its default, which is not validated; a supplied value
    goes through the "before" hook and must then have the field's type.
    [None] stands for [ValidationError]. *)

Definition validate_str (v : PyVal) : option pystr :=
  match v with PStr s => Some s | _ => None end.

Definition validate_optional_str (v : PyVal) : option (option pystr) :=
  match v with
  | PNone => Some None
  | PStr s => Some (Some s)
  | _ => None
  end.

Definition validate_list {T : Type} (validate_item : PyVal -> option T) (v : PyVal)
    : option (list T) :=
  match v with PList l => mapM validate_item l | _ => None end.

Definition field {T : Type} (validate : PyVal -> option T) (default : T)
    (data : pydict) (name : pystr) : option T :=
  match data !! name with
  | Some v => validate v
  | None => Some default
  end.

Definition InjuryRecord_init (data : pydict) : option InjuryRecord :=
  date ← field validate_str [] data (u "date");
  description ← field validate_str [] data (u "description");
  Some {| date := date; description := description |}.

Definition PastRunRecord_init (data : pydict) : option PastRunRecord :=
  race_date ← field validate_str [] data (u "race_date");
  venue ← field validate_str [] data (u "venue");
  distance ← field validate_str [] data (u "distance");
  barrier ← field validate_str [] data (u "barrier");
  weight ← field validate_str [] data (u "weight");
  jockey ← field validate_str [] data (u "jockey");
  position ← field validate_str [] data (u "position");
  time ← field validate_str [] data (u "time");
  equipment ← field validate_str [] data (u "equipment");
  rating ← field validate_str [] data (u "rating");
  odds ← field validate_str [] data (u "odds");
  track_condition ← field validate_str [] data (u "track_condition");
  race_class ← field validate_str [] data (u "race_class");
  distance_to_winner ← field validate_str [] data (u "distance_to_winner");
  running_position ← field validate_str [] data (u "running_position");
  barrier_weight ← field validate_str [] data (u "barrier_weight");
  trainer ← field validate_str [] data (u "trainer");
  Some {| race_date := race_date;
          venue := venue;
          distance := distance;
          barrier := barrier;
          weight := weight;
          jockey := jockey;
          position := position;
          time := time;
          equipment := equipment;
          rating := rating;
          odds := odds;
          track_condition := track_condition;
          race_class := race_class;
          distance_to_winner := distance_to_winner;
          running_position := running_position;
          barrier_weight := barrier_weight;
          trainer := trainer |}.

Definition validate_InjuryRecord (v : PyVal) : option InjuryRecord :=
  match v with
  | PModel (MInjuryRecord r) => Some r
  | PDict d => InjuryRecord_init d
  | _ => None
  end.

Definition validate_PastRunRecord (v : PyVal) : option PastRunRecord :=
  match v with
  | PModel (MPastRunRecord r) => Some r
  | PDict d => PastRunRecord_init d
  | _ => None
  end.

(** A [str] field and a list field of a model with the [convert_to_string] hook. *)
Definition str_field (default : pystr) (data : pydict) (name : pystr) : option pystr :=
  field (fun v => validate_str (convert_to_string v)) default data name.

Definition list_field {T : Type} (validate_item : PyVal -> option T)
    (data : pydict) (name : pystr) : option (list T) :=
  field (fun v => validate_list validate_item (convert_to_string v)) [] data name.

Definition HorseRecord_init (data : pydict) : option HorseRecord :=
  馬號 ← str_field [] data (u "馬號");
  馬匹ID ← str_field [] data (u "馬匹ID");
  馬名 ← str_field [] data (u "馬名");
  馬匹編號 ← str_field [] data (u "馬匹編號");
  最近6輪 ← str_field [] data (u "最近6輪");
  排位 ← str_field [] data (u "排位");
  負磅 ← str_field [] data (u "負磅");
  騎師 ← str_field [] data (u "騎師");
  練馬師 ← str_field [] data (u "練馬師");
  獨贏 ← str_field [] data (u "獨贏");
  位置 ← str_field [] data (u "位置");
  當前評分 ← str_field [] data (u "當前評分");
  國際評分 ← str_field [] data (u "國際評分");
  配備 ← str_field [] data (u "配備");
  讓磅 ← str_field [] data (u "讓磅");
  練馬師喜好 ← str_field (u "1") data (u "練馬師喜好");
  馬齡 ← str_field [] data (u "馬齡");
  傷病記錄 ← list_field validate_InjuryRecord data (u "傷病記錄");
  往績紀錄 ← list_field validate_PastRunRecord data (u "往績紀錄");
  馬匹基本資料 ← str_field [] data (u "馬匹基本資料");
  Some {| 馬號 := 馬號;
          馬匹ID := 馬匹ID;
          馬名 := 馬名;
          馬匹編號 := 馬匹編號;
          最近6輪 := 最近6輪;
          排位 := 排位;
          負磅 := 負磅;
          騎師 := 騎師;
          練馬師 := 練馬師;
          獨贏 := 獨贏;
          位置 := 位置;
          當前評分 := 當前評分;
          國際評分 := 國際評分;
          配備 := 配備;
          讓磅 := 讓磅;
          練馬師喜好 := 練馬師喜好;
          馬齡 := 馬齡;
          傷病記錄 := 傷病記錄;
          往績紀錄 := 往績紀錄;
          馬匹基本資料 := 馬匹基本資料 |}.

Definition ToplineData_init (data : pydict) : option ToplineData :=
  topline_fields ← HorseRecord_init data;
  detail_url ← field (fun v => validate_optional_str (convert_to_string v)) None
                     data (u "detail_url");
  Some {| topline_fields := topline_fields; detail_url := detail_url |}.

End Models.

(** *** model_dump *)

Definition InjuryRecord_dump (r : InjuryRecord) : pydict :=
  list_to_map [(u "date", PStr (date r)); (u "description", PStr (description r))].

Definition PastRunRecord_dump (r : PastRunRecord) : pydict :=
  list_to_map [(u "race_date", PStr (race_date r));
               (u "venue", PStr (venue r));
               (u "distance", PStr (distance r));
               (u "barrier", PStr (barrier r));
               (u "weight", PStr (weight r));
               (u "jockey", PStr (jockey r));
               (u "position", PStr (position r));
               (u "time", PStr (time r));
               (u "equipment", PStr (equipment r));
               (u "rating", PStr (rating r));
               (u "odds", PStr (odds r));
               (u "track_condition", PStr (track_condition r));
               (u "race_class", PStr (race_class r));
               (u "distance_to_winner", PStr (distance_to_winner r));
               (u "running_position", PStr (running_position r));
               (u "barrier_weight", PStr (barrier_weight r));
               (u "trainer", PStr (trainer r))].

Definition HorseRecord_items (r : HorseRecord) : list (list N * PyVal) :=
  [(u "馬號", PStr (馬號 r));
   (u "馬匹ID", PStr (馬匹ID r));
   (u "馬名", PStr (馬名 r));
   (u "馬匹編號", PStr (馬匹編號 r));
   (u "最近6輪", PStr (最近6輪 r));
   (u "排位", PStr (排位 r));
   (u "負磅", PStr (負磅 r));
   (u "騎師", PStr (騎師 r));
   (u "練馬師", PStr (練馬師 r));
   (u "獨贏", PStr (獨贏 r));
   (u "位置", PStr (位置 r));
   (u "當前評分", PStr (當前評分 r));
   (u "國際評分", PStr (國際評分 r));
   (u "配備", PStr (配備 r));
   (u "讓磅", PStr (讓磅 r));
   (u "練馬師喜好", PStr (練馬師喜好 r));
   (u "馬齡", PStr (馬齡 r));
   (u "傷病記錄", PList ((fun i => PDict (InjuryRecord_dump i)) <$> 傷病記錄 r));
   (u "往績紀錄", PList ((fun p => PDict (PastRunRecord_dump p)) <$> 往績紀錄 r));
   (u "馬匹基本資料", PStr (馬匹基本資料 r))].

Definition HorseRecord_dump (r : HorseRecord) : pydict :=
  list_to_map (HorseRecord_items r).

Definition ToplineData_dump (t : ToplineData) : pydict :=
  list_to_map (HorseRecord_items (topline_fields t) ++
               [(u "detail_url",
                 match detail_url t with Some s => PStr s | None => PNone end)]).

Definition schema_fields : list pystr :=
  [u "馬號"; u "馬匹ID"; u "馬名"; u "馬匹編號"; u "最近6輪"; u "排位"; u "負磅"; u "騎師"; u "練馬師"; u "獨贏"; u "位置"; u "當前評分"; u "國際評分"; u "配備"; u "讓磅"; u "練馬師喜好"; u "馬齡"; u "傷病記錄"; u "往績紀錄"; u "馬匹基本資料"].

Section Merge.

Variable str_other : PyVal -> pystr.

(** [merged_data = topline.copy(); merged_data.update(detail)] *)
Definition merged_data (topline detail : pydict) : pydict := detail ∪ topline.

Definition from_topline_and_detail (topline detail : pydict) : option ToplineData :=
  ToplineData_init str_other (merged_data topline detail).

Definition from_topline_data (topline_data : ToplineData) : option HorseRecord :=
  HorseRecord_init str_other (ToplineData_dump topline_data).

(** The merge of the record assembler: [from_topline_and_detail] followed by
    [from_topline_data]. *)
Definition merge (topline detail : pydict) : option HorseRecord :=
  topline_data ← from_topline_and_detail topline detail;
  from_topline_data topline_data.

(** What the coercion makes of the value supplied for a scalar field. *)
Definition coerced (default : pystr) (v : option PyVal) : pystr :=
  match v with
  | None => default
  | Some PNone => []
  | Some (PStr s) => s
  | Some v => py_str str_other v
  end.

Definition is_container (v : PyVal) : bool :=
  match v with PList _ | PDict _ => true | _ => false end.

(** The keywords of the scalar fields, [detail_url] included. *)
Definition scalar_fields : list pystr :=
  [u "馬號"; u "馬匹ID"; u "馬名"; u "馬匹編號"; u "最近6輪"; u "排位"; u "負磅"; u "騎師"; u "練馬師"; u "獨贏"; u "位置"; u "當前評分"; u "國際評分"; u "配備"; u "讓磅"; u "練馬師喜好"; u "馬齡"; u "馬匹基本資料"; u "detail_url"].

(** No scalar field is supplied a list or a dict. *)
Definition scalars_supplied (data : pydict) : bool :=
  forallb (fun name => match data !! name with
                       | Some v => negb (is_container v)
                       | None => true
                       end) scalar_fields.

(** A list field is absent, or supplied a list whose items are valid for
    the item model; [items] is the list of records it stands for. *)
Definition list_supplied {T : Type} (validate_item : PyVal -> option T)
    (v : option PyVal) (items : list T) : Prop :=
  match v with
  | None => items = []
  | Some (PList l) => mapM validate_item l = Some items
  | Some _ => False
  end.

(** The record the merge is specified to produce from the merged keywords. *)
Definition merged_record (data : pydict) (injuries : list InjuryRecord)
    (past_runs : list PastRunRecord) : HorseRecord :=
  {| 馬號 := coerced [] (data !! u "馬號");
     馬匹ID := coerced [] (data !! u "馬匹ID");
     馬名 := coerced [] (data !! u "馬名");
     馬匹編號 := coerced [] (data !! u "馬匹編號");
     最近6輪 := coerced [] (data !! u "最近6輪");
     排位 := coerced [] (data !! u "排位");
     負磅 := coerced [] (data !! u "負磅");
     騎師 := coerced [] (data !! u "騎師");
     練馬師 := coerced [] (data !! u "練馬師");
     獨贏 := coerced [] (data !! u "獨贏");
     位置 := coerced [] (data !! u "位置");
     當前評分 := coerced [] (data !! u "當前評分");
     國際評分 := coerced [] (data !! u "國際評分");
     配備 := coerced [] (data !! u "配備");
     讓磅 := coerced [] (data !! u "讓磅");
     練馬師喜好 := coerced (u "1") (data !! u "練馬師喜好");
     馬齡 := coerced [] (data !! u "馬齡");
     傷病記錄 := injuries;
     往績紀錄 := past_runs;
     馬匹基本資料 := coerced [] (data !! u "馬匹基本資料") |}.

End Merge.

(** ** The DOM as the scraper queries it *)

(** An element handle; [inner_text] is [None] when the call raises. *)
Record Element := Elem { inner_text : option pystr }.

(** A table as seen through [query_selector_all("th")] and
    [query_selector_all("tr")], each row through
    [query_selector_all("td, th")]. *)
Record Table := { table_th : list Element; table_tr : list (list Element) }.

(** An element whose [inner_text()] returns [text]. *)
Definition text_cell (text : pystr) : Element := Elem (Some text).

Definition extract_text_safe (element : Element) : pystr :=
  match inner_text element with
  | Some text => normalize_text text
  | None => []
  end.

Definition cell_text (cell : Element) : pystr :=
  normalize_text (extract_text_safe cell).

(** A page as the scraper queries it; [None] stands for a call that raises. *)
Record Page := {
  query_tables : pystr -> option (list Table);
  query_element : pystr -> option (option Element);
  title : option pystr;
  page_inner_text : option pystr
}.

(** ** constants.py *)

Definition SELECTORS_race_table : pystr := u "table, .raceTable table, table.tableBorder".

Definition EXPECTED_HEADERS : list pystr :=
  [u "編號"; u "馬名"; u "排位體重"; u "負磅"; u "評分"; u "馬齡"; u "6次近績";
   u "練馬師"; u "優先參賽次序"; u "配備"; u "騎師"; u "讓磅"; u "獨贏"; u "位置";
   u "練馬師喜好"; u "馬匹編號"; u "國際評分"].

(** ** selectors.py *)

Definition is_ideograph (c : N) : bool := (0x4e00 <=? c) && (c <=? 0x9fff).

(** [re.sub(r'[^\u4e00-\u9fff]', '', s)] *)
Definition strip_non_ideograph (s : pystr) : pystr := List.filter is_ideograph s.

Section Selectors.

(** [str.isalnum] of the interpreter's Unicode database. *)
Variable isalnum : N -> bool.

(** [\w] in a [str] pattern: alphanumeric or underscore. *)
Definition is_word (c : N) : bool := isalnum c || (c =? 0x5F).

(** [re.sub(r'[^\w]', '', s)] *)
Definition strip_non_word (s : pystr) : pystr := List.filter is_word s.

Definition _header_matches (expected actual : pystr) : bool :=
  if bool_decide (expected = actual) then true
  else if str_in expected actual || str_in actual expected then true
  else
    let expected_clean := strip_non_word expected in
    let actual_clean := strip_non_word actual in
    if bool_decide (expected_clean = actual_clean) then true
    else
      let expected_core := strip_non_ideograph expected in
      let actual_core := strip_non_ideograph actual in
      if truthy expected_core && truthy actual_core then
        if str_in expected_core actual_core || str_in actual_core expected_core
        then true
        else if (2 <=? length expected_core)%nat && (2 <=? length actual_core)%nat
        then existsb (fun i => str_in (take 2 (drop i expected_core)) actual_core)
                     (seq 0 (length expected_core - 1))
        else false
      else false.

(** The header cells [_table_has_headers] looks at: the [th] elements of the
    table, or the cells of its first row when there are none. *)
Definition header_cells_of (table : Table) : list Element :=
  match table_th table with
  | _ :: _ => table_th table
  | [] =>
    match table_tr table with
    | first_row :: _ => first_row
    | [] => []
    end
  end.

(** The normalised, non-empty header texts. *)
Definition header_texts_of (header_cells : list Element) : list pystr :=
  List.filter truthy (List.map cell_text header_cells).

(** [found_headers]: the expected headers with at least one matching cell. *)
Definition found_headers (header_texts expected_headers : list pystr) : nat :=
  length (List.filter
            (fun expected => existsb (_header_matches expected) header_texts)
            expected_headers).

Definition _table_has_headers (table : Table) (expected_headers : list pystr) : bool :=
  match header_cells_of table with
  | [] => false
  | header_cells =>
    (3 <=? found_headers (header_texts_of header_cells) expected_headers)%nat
  end.

(** The loop over [table_selectors]; a selector whose query raises is skipped. *)
Fixpoint find_in_selectors (page : Page) (table_selectors : list pystr)
    (expected_headers : list pystr) : option Table :=
  match table_selectors with
  | [] => None
  | table_selector :: rest =>
    match query_tables page table_selector with
    | Some tables =>
      match List.find (fun table => _table_has_headers table expected_headers) tables with
      | Some table => Some table
      | None => find_in_selectors page rest expected_headers
      end
    | None => find_in_selectors page rest expected_headers
    end
  end.

Definition find_table_by_headers (page : Page) (expected_headers : list pystr)
    (table_selectors : option (list pystr)) : option Table :=
  let table_selectors :=
    match table_selectors with
    | None => [SELECTORS_race_table]
    | Some l => l
    end in
  match find_in_selectors page table_selectors expected_headers with
  | Some table => Some table
  | None =>
    match query_tables page (u "table") with
    | Some all_tables =>
      List.find (fun table => _table_has_headers table expected_headers) all_tables
    | None => None
    end
  end.

(** One iteration of the loop over [enumerate(header_cells)]. *)
Definition map_header_cell (expected_headers : list pystr)
    (column_map : gmap (list N) nat) (col_index : nat) (cell : Element)
    : gmap (list N) nat :=
  let header_text := cell_text cell in
  if negb (truthy header_text) then column_map
  else
    match List.find (fun expected => _header_matches expected header_text) expected_headers with
    | Some expected => <[expected := col_index]> column_map
    | None => column_map
    end.

Fixpoint map_header_cells (expected_headers : list pystr)
    (column_map : gmap (list N) nat) (col_index : nat) (header_cells : list Element)
    : gmap (list N) nat :=
  match header_cells with
  | [] => column_map
  | cell :: rest =>
    map_header_cells expected_headers
      (map_header_cell expected_headers column_map col_index cell) (S col_index) rest
  end.

Definition get_header_column_map (table : Table) (expected_headers : list pystr)
    : gmap (list N) nat :=
  match table_tr table with
  | [] => ∅
  | header_row :: _ => map_header_cells expected_headers ∅ 0%nat header_row
  end.

End Selectors.

(** *** The matching tiers, as the specification words them *)

Definition substring (a b : pystr) : Prop := exists pre post, b = pre ++ a ++ post.

Definition tier_exact (expected observed : pystr) : Prop := expected = observed.

Definition tier_containment (expected observed : pystr) : Prop :=
  substring expected observed \/ substring observed expected.

(** Tier 3 with "non-alphanumeric" taken literally. *)
Definition tier_alnum (isalnum : N -> bool) (expected observed : pystr) : Prop :=
  List.filter isalnum expected = List.filter isalnum observed.

(** Tier 3 with the word characters of the pattern: alphanumerics and [_]. *)
Definition tier_word (isalnum : N -> bool) (expected observed : pystr) : Prop :=
  strip_non_word isalnum expected = strip_non_word isalnum observed.

Definition window_of (s : pystr) (w : pystr) : Prop :=
  exists i : nat, (i + 2 <= length s)%nat /\ w = take 2 (drop i s).

Definition tier_ideograph (expected observed : pystr) : Prop :=
  let e := strip_non_ideograph expected in
  let o := strip_non_ideograph observed in
  e <> [] /\ o <> [] /\
  (substring e o \/ substring o e \/ exists w, window_of e w /\ substring w o).

Definition spec_header_matches (isalnum : N -> bool) (expected observed : pystr) : Prop :=
  tier_exact expected observed \/ tier_containment expected observed \/
  tier_alnum isalnum expected observed \/ tier_ideograph expected observed.

Definition tiered_header_matches (isalnum : N -> bool) (expected observed : pystr) : Prop :=
  tier_exact expected observed \/ tier_containment expected observed \/
  tier_word isalnum expected observed \/ tier_ideograph expected observed.

(** A fragment of the Unicode table, enough to evaluate examples:
    [str.isalnum] on ASCII and on the CJK unified ideographs. *)
Definition sample_isalnum (c : N) : bool :=
  ((0x30 <=? c) && (c <=? 0x39)) || ((0x41 <=? c) && (c <=? 0x5A)) ||
  ((0x61 <=? c) && (c <=? 0x7A)) || is_ideograph c.

(** *** What the locator and the column map are specified against *)

Section SelectorSpecs.

Variable isalnum : N -> bool.

(** The header cells of a table, as the specification words them: its
    header-tagged cells when it has any, else the cells of its first row. *)
Definition spec_header_cells (table : Table) : list Element :=
  if (length (table_th table) =? 0)%nat then default [] (head (table_tr table))
  else table_th table.

(** The expected label has a matching header cell: a header cell whose
    normalised text is not empty and is matched by one of the tiers. *)
Definition label_matched (table : Table) (expected : pystr) : Prop :=
  exists cell, In cell (spec_header_cells table) /\ cell_text cell <> [] /\
               tiered_header_matches isalnum expected (cell_text cell).

(** At least three entries of the list of expected labels have a matching
    header cell. *)
Definition qualifies (table : Table) (expected_headers : list pystr) : Prop :=
  exists l1 e1 l2 e2 l3 e3 l4,
    expected_headers = l1 ++ e1 :: l2 ++ e2 :: l3 ++ e3 :: l4 /\
    label_matched table e1 /\ label_matched table e2 /\ label_matched table e3.

(** [result] is the first table of [tables] that qualifies, or [None] when
    no table of [tables] does. *)
Definition first_qualifying (expected_headers : list pystr) (tables : list Table)
    (result : option Table) : Prop :=
  match result with
  | Some table =>
    qualifies table expected_headers /\
    exists pre post, tables = pre ++ table :: post /\
                     forall t, In t pre -> ~ qualifies t expected_headers
  | None => forall t, In t tables -> ~ qualifies t expected_headers
  end.

(** The tables in the order the locator scans them: the result of each
    selector in turn (nothing for a query that raises), then the result of
    the generic [table] query. *)
Definition scanned_tables (page : Page) (table_selectors : list pystr) : list Table :=
  concat (List.map (fun sel => default [] (query_tables page sel)) table_selectors)
  ++ default [] (query_tables page (u "table")).

Definition first_row (table : Table) : list Element :=
  match table_tr table with
  | [] => []
  | header_row :: _ => header_row
  end.

(** Column [i] of the header row has text, and [label] is the first
    expected label that its text matches. *)
Definition column_claims (expected_headers : list pystr) (header_cells : list Element)
    (i : nat) (label : pystr) : Prop :=
  exists cell, header_cells !! i = Some cell /\ cell_text cell <> [] /\
    List.find (fun expected => _header_matches isalnum expected (cell_text cell))
              expected_headers = Some label.

(** The same test on one cell, as a boolean. *)
Definition cell_claims (expected_headers : list pystr) (cell : Element)
    (label : pystr) : bool :=
  truthy (cell_text cell) &&
  bool_decide
    (List.find (fun expected => _header_matches isalnum expected (cell_text cell))
               expected_headers = Some label).

End SelectorSpecs.

(** ** horse_detail.py *)

Definition comprehensive_indicators : list pystr :=
  [u "場次"; u "名次"; u "日期"; u "馬場"; u "跑道";
   u "賽道"; u "途程"; u "場地狀況"; u "賽事班次"; u "檔位";
   u "評分"; u "練馬師"; u "騎師"; u "頭馬距離"; u "獨贏賠率";
   u "實際負磅"; u "沿途走位"; u "完成時間"; u "排位體重"; u "配備"].

Definition basic_indicators : list pystr :=
  [u "日期"; u "場地"; u "途程"; u "檔位"; u "負磅"; u "騎師"; u "名次"; u "時間"; u "配備"; u "評分"; u "獨贏"].

(** [sum(1 for indicator in indicators if any(indicator in header for header in headers))] *)
Definition count_indicators (indicators headers : list pystr) : nat :=
  length (List.filter (fun indicator => existsb (str_in indicator) headers) indicators).

(** [header_mapping[header] = i] for [i, header] in [enumerate(headers)]. *)
Fixpoint build_header_mapping (header_mapping : gmap (list N) nat) (i : nat)
    (headers : list pystr) : gmap (list N) nat :=
  match headers with
  | [] => header_mapping
  | header :: rest => build_header_mapping (<[header := i]> header_mapping) (S i) rest
  end.

Fixpoint _get_cell_value (cells : list Element) (header_mapping : gmap (list N) nat)
    (possible_headers : list pystr) : pystr :=
  match possible_headers with
  | [] => []
  | header :: rest =>
    match header_mapping !! header with
    | Some idx =>
      match cells !! idx with
      | Some cell => cell_text cell
      | None => _get_cell_value cells header_mapping rest
      end
    | None => _get_cell_value cells header_mapping rest
    end
  end.

(** [any([a, b, c])] on three strings. *)
Definition any3 (a b c : pystr) : bool := truthy a || truthy b || truthy c.

(** One data row of a comprehensive table: the record it appends, if any. *)
Definition comprehensive_row (header_mapping : gmap (list N) nat) (cells : list Element)
    : option PastRunRecord :=
  if (length cells <? 10)%nat then None
  else
    let get := _get_cell_value cells header_mapping in
    let past_run :=
      {| race_date := get [u "日期"; u "Date"];
         venue := get [u "馬場"; u "跑道"; u "賽道"; u "場地"; u "Venue"];
         distance := get [u "途程"; u "Distance"];
         barrier := get [u "檔位"; u "Barrier"];
         weight := get [u "實際負磅"; u "負磅"; u "Weight"];
         jockey := get [u "騎師"; u "Jockey"];
         position := get [u "名次"; u "Position"];
         time := get [u "完成時間"; u "時間"; u "Time"];
         equipment := get [u "配備"; u "Equipment"];
         rating := get [u "評分"; u "Rating"];
         odds := get [u "獨贏賠率"; u "獨贏"; u "Odds"];
         track_condition := get [u "場地狀況"; u "Track Condition"];
         race_class := get [u "賽事班次"; u "Class"];
         distance_to_winner := get [u "頭馬距離"; u "Distance to Winner"];
         running_position := get [u "沿途走位"; u "Running Position"];
         barrier_weight := get [u "排位體重"; u "Barrier Weight"];
         trainer := get [u "練馬師"; u "Trainer"] |} in
    if any3 (race_date past_run) (position past_run) (jockey past_run)
    then Some past_run else None.

(** One data row of a basic table. *)
Definition basic_row (headers : list pystr) (header_mapping : gmap (list N) nat)
    (cells : list Element) : option PastRunRecord :=
  if (length cells <? length headers)%nat then None
  else
    let get := _get_cell_value cells header_mapping in
    let past_run :=
      {| race_date := get [u "日期"; u "Date"];
         venue := get [u "場地"; u "Venue"];
         distance := get [u "途程"; u "Distance"];
         barrier := get [u "檔位"; u "Barrier"];
         weight := get [u "負磅"; u "Weight"];
         jockey := get [u "騎師"; u "Jockey"];
         position := get [u "名次"; u "Position"];
         time := get [u "時間"; u "Time"];
         equipment := get [u "配備"; u "Equipment"];
         rating := get [u "評分"; u "Rating"];
         odds := get [u "獨贏"; u "Odds"];
         track_condition := []; race_class := []; distance_to_winner := [];
         running_position := []; barrier_weight := []; trainer := [] |} in
    if any3 (race_date past_run) (venue past_run) (position past_run)
    then Some past_run else None.

(** The body of [for table in tables]: the list after this table, and
    whether the loop breaks. *)
Definition scan_table (past_runs : list PastRunRecord) (table : Table)
    : list PastRunRecord * bool :=
  let rows := table_tr table in
  if (length rows <? 2)%nat then (past_runs, false)
  else
    match rows with
    | [] => (past_runs, false)
    | header_row :: _ =>
      let headers := cell_text <$> header_row in
      let found_comprehensive := count_indicators comprehensive_indicators headers in
      let found_basic := count_indicators basic_indicators headers in
      if (8 <=? found_comprehensive)%nat then
        let header_mapping := build_header_mapping ∅ 0%nat headers in
        let data_rows := take 6 (drop 1 rows) in
        (past_runs ++ omap (comprehensive_row header_mapping) data_rows, false)
      else if (3 <=? found_basic)%nat then
        let header_mapping := build_header_mapping ∅ 0%nat headers in
        let data_rows := take 6 (drop 1 rows) in
        let past_runs := past_runs ++ omap (basic_row headers header_mapping) data_rows in
        (past_runs, match past_runs with [] => false | _ :: _ => true end)
      else (past_runs, false)
    end.

Fixpoint scan_tables (past_runs : list PastRunRecord) (tables : list Table)
    : list PastRunRecord :=
  match tables with
  | [] => past_runs
  | table :: rest =>
    let '(past_runs, stop) := scan_table past_runs table in
    if stop then past_runs else scan_tables past_runs rest
  end.

(** A record carrying only [position]. *)
Definition position_only (position : pystr) : PastRunRecord :=
  {| race_date := []; venue := []; distance := []; barrier := []; weight := [];
     jockey := []; position := position; time := []; equipment := [];
     rating := []; odds := []; track_condition := []; race_class := [];
     distance_to_winner := []; running_position := []; barrier_weight := [];
     trainer := [] |}.

Section HorseDetail.

(** [re.findall(r'(\d+):\s*(\d+)', page_text)] *)
Variable findall_race_pattern : pystr -> list (pystr * pystr).
(** [str.isdigit] *)
Variable isdigit : pystr -> bool.

Definition _parse_past_runs_from_profile_text (page : Page) : list PastRunRecord :=
  match page_inner_text page with
  | None => []
  | Some page_text =>
    let matches := findall_race_pattern page_text in
    let recent_matches := drop (length matches - 6) matches in
    (fun m => position_only m.2) <$> recent_matches
  end.

Definition _scrape_past_runs_from_main_page (page : Page) : list PastRunRecord :=
  match query_tables page (u "table") with
  | None => []
  | Some tables =>
    match scan_tables [] tables with
    | [] => _parse_past_runs_from_profile_text page
    | past_runs => past_runs
    end
  end.

(** [parts = s.split(sep); parts[0]] for a non-empty separator. *)
Fixpoint split_first (sep s : pystr) : pystr :=
  if startswith sep s then []
  else match s with
       | [] => []
       | c :: t => c :: split_first sep t
       end.

Fixpoint name_from_selectors (page : Page) (selectors : list pystr) : option pystr :=
  match selectors with
  | [] => None
  | selector :: rest =>
    match query_element page selector with
    | Some (Some element) =>
      let text := cell_text element in
      if truthy text && (length text <? 20)%nat then Some text
      else name_from_selectors page rest
    | _ => name_from_selectors page rest
    end
  end.

Definition _extract_horse_name_from_page (page : Page) : option pystr :=
  match name_from_selectors page [u "h1"; u ".horse-name"; u ".title"; u "title"] with
  | Some text => Some text
  | None =>
    match title page with
    | Some title =>
      if truthy title && str_in (u "馬匹資料") title
      then Some (strip (split_first (u " - ") title))
      else None
    | None => None
    end
  end.

(** [InjuryRecord(date=..., description=..., pass_date=...)] *)
Definition new_InjuryRecord (date description pass_date : pystr) : option InjuryRecord :=
  InjuryRecord_init
    {[ u "date" := PStr date; u "description" := PStr description;
       u "pass_date" := PStr pass_date ]}.

(** [" ".join(texts)] *)
Fixpoint join_space (texts : list pystr) : pystr :=
  match texts with
  | [] => []
  | [t] => t
  | t :: rest => t ++ 0x20 :: join_space rest
  end.

Definition cell_at (cells : list Element) (i : nat) : pystr :=
  match cells !! i with Some cell => cell_text cell | None => [] end.

(** [pass_date_cell if pass_date_cell != "-" else ""] *)
Definition dash_to_empty (pass_date : pystr) : pystr :=
  if bool_decide (pass_date = u "-") then [] else pass_date.

(** The [while j < len(rows)] loop over the rows after the owning row: the
    records it appends, and [false] when building a record raised. *)
Fixpoint continuation_rows (rows : list (list Element))
    : list InjuryRecord * bool :=
  match rows with
  | [] => ([], true)
  | next_cells :: rest =>
    if (5 <=? length next_cells)%nat then
      let first_cell := cell_at next_cells 0 in
      let second_cell := cell_at next_cells 1 in
      if negb (truthy second_cell) && truthy first_cell &&
         (str_in (u "/") first_cell || isdigit first_cell)
      then
        let cont_date := first_cell in
        let cont_description := cell_at next_cells 2 in
        let cont_pass_date := cell_at next_cells 3 in
        if truthy cont_date && truthy cont_description then
          match new_InjuryRecord cont_date cont_description
                                 (dash_to_empty cont_pass_date) with
          | Some record =>
            let '(more, ok) := continuation_rows rest in (record :: more, ok)
          | None => ([], false)
          end
        else continuation_rows rest
      else ([], true)
    else ([], true)
  end.

(** The [for i, row in enumerate(rows)] loop. *)
Fixpoint scan_injury_rows (horse_name : pystr) (injuries : list InjuryRecord)
    (rows : list (list Element)) : list InjuryRecord :=
  match rows with
  | [] => injuries
  | cells :: rest =>
    if (5 <=? length cells)%nat &&
       str_in horse_name (join_space (cell_text <$> cells))
    then
      let horse_name_cell := cell_at cells 1 in
      let date_cell := cell_at cells 2 in
      let description_cell := cell_at cells 3 in
      let pass_date_cell := cell_at cells 4 in
      if bool_decide (horse_name_cell = horse_name) && truthy date_cell &&
         truthy description_cell
      then
        match new_InjuryRecord date_cell description_cell
                               (dash_to_empty pass_date_cell) with
        | Some record =>
          let '(more, ok) := continuation_rows rest in
          if ok then injuries ++ record :: more
          else scan_injury_rows horse_name (injuries ++ record :: more) rest
        | None => scan_injury_rows horse_name injuries rest
        end
      else scan_injury_rows horse_name injuries rest
    else scan_injury_rows horse_name injuries rest
  end.

(** [vet_page] is the document [page.goto(injury_url)] loads, [None] when
    the navigation raises. *)
Definition _scrape_injuries_from_separate_page (page : Page) (vet_page : option Page)
    : list InjuryRecord :=
  match _extract_horse_name_from_page page with
  | None => []
  | Some horse_name =>
    if negb (truthy horse_name) then []
    else
      match vet_page with
      | None => []
      | Some vet =>
        match query_tables vet (u "table") with
        | None => []
        | Some [] => []
        | Some (table :: _) => scan_injury_rows horse_name [] (table_tr table)
        end
      end
  end.

End HorseDetail.

(** ** utils.py: checkpoints and the final output *)

(** The files the scraper writes are JSON documents; a file is modelled by
    the document it holds, the text layer of the [json] module being left
    out.  [fs_fails path] tells that opening [path] raises [OSError]; a
    failed write leaves the file as it was. *)
Record FileSystem := {
  fs_files : gmap (list N) PyVal;
  fs_fails : pystr -> bool
}.

Inductive LogLevel := DEBUG | INFO | WARNING | ERROR.

(** [with open(path, "w") as f: json.dump(doc, f)], [None] when it raises. *)
Definition write_json (path : pystr) (doc : PyVal) (fs : FileSystem)
    : option FileSystem :=
  if fs_fails fs path then None
  else Some {| fs_files := <[path := doc]> (fs_files fs); fs_fails := fs_fails fs |}.

(** [with open(path, "r") as f: json.load(f)] *)
Definition read_json (path : pystr) (fs : FileSystem) : option PyVal :=
  if fs_fails fs path then None else fs_files fs !! path.

(** [[record.model_dump() for record in data]] *)
Definition dump_records (data : list HorseRecord) : PyVal :=
  PList ((fun record => PDict (HorseRecord_dump record)) <$> data).

(** The file system after the call and the level of the record it logs. *)
Definition save_checkpoint (data : list HorseRecord) (checkpoint_path : pystr)
    (fs : FileSystem) : FileSystem * LogLevel :=
  match write_json checkpoint_path (dump_records data) fs with
  | Some fs' => (fs', INFO)
  | None => (fs, ERROR)
  end.

Definition save_final_output (data : list HorseRecord) (output_path : pystr)
    (fs : FileSystem) : FileSystem * LogLevel :=
  match write_json output_path (dump_records data) fs with
  | Some fs' => (fs', INFO)
  | None => (fs, ERROR)
  end.

Definition path_exists (path : pystr) (fs : FileSystem) : bool :=
  bool_decide (is_Some (fs_files fs !! path)).

Section Checkpoint.

Variable str_other : PyVal -> pystr.

(** What iterating over a loaded document yields; [None] when the value is
    not iterable.  The keys of a dict come in no particular order here: a
    key is a string and makes the construction below fail wherever it is. *)
Definition py_iter (doc : PyVal) : option (list PyVal) :=
  match doc with
  | PList l => Some l
  | PDict d => Some (PStr <$> (map_to_list d).*1)
  | PStr s => Some ((fun c => PStr [c]) <$> s)
  | _ => None
  end.

(** [HorseRecord] constructed with the items of [record_data] as keywords. *)
Definition HorseRecord_of (record_data : PyVal) : option HorseRecord :=
  match record_data with
  | PDict d => HorseRecord_init str_other d
  | _ => None
  end.

Definition load_checkpoint (checkpoint_path : pystr) (fs : FileSystem)
    : list HorseRecord * LogLevel :=
  if negb (path_exists checkpoint_path fs) then ([], INFO)
  else
    match read_json checkpoint_path fs with
    | None => ([], ERROR)
    | Some checkpoint_data =>
      match py_iter checkpoint_data ≫= mapM HorseRecord_of with
      | Some records => (records, INFO)
      | None => ([], ERROR)
      end
    end.

End Checkpoint.

(** ** main.py *)

(** The command line as click receives it: the text given for each option,
    [None] for an option that is left out.  The four required options are
    present. *)
Record CommandLine := {
  opt_date : pystr;
  opt_course : pystr;
  opt_raceno : pystr;
  opt_out : pystr;
  opt_checkpoint : option pystr;
  opt_max_retries : option pystr;
  opt_log_level : option pystr
}.

(** The parameters the body of [main] is called with. *)
Record Args := {
  arg_date : pystr;
  arg_course : pystr;
  arg_raceno : Z;
  arg_out : pystr;
  arg_checkpoint : option pystr
}.

(** The browser and the two scrapers as [main] uses them: what launching
    and closing the browser raise, if anything, what [scrape_race] returns,
    and what [scrape_horse_details] returns for the entrant at an index. *)
Record Scrapers := {
  launch : option exn;
  scrape_race : outcome (list ToplineData);
  scrape_horse_details : nat -> pystr -> outcome pydict;
  browser_close : option exn
}.

Definition VALID_COURSES : list pystr := [u "HV"; u "ST"].

Definition validate_race_number (raceno : Z) : bool :=
  ((1 <=? raceno) && (raceno <=? 12))%Z.

Definition ValidationError : exn := Exception (u "ValidationError").
Definition ZeroDivisionError : exn := Exception (u "ZeroDivisionError").

(** Truthiness of the [--checkpoint] option. *)
Definition given (checkpoint : option pystr) : bool :=
  match checkpoint with Some path => truthy path | None => false end.

Section Main.

Variable str_other : PyVal -> pystr.
(** [time.strptime(date_str, "%Y/%m/%d")] succeeds *)
Variable validate_date_format : pystr -> bool.
(** [str.upper] *)
Variable str_upper : pystr -> pystr.
(** [str.casefold] *)
Variable str_casefold : pystr -> pystr.
(** [int(text)], [None] when it raises [ValueError] *)
Variable int_of_text : pystr -> option Z.

(** [click.Choice(choices, case_sensitive=...)]: the choice the text stands
    for, [None] when click rejects the text. *)
Definition click_Choice (choices : list pystr) (case_sensitive : bool)
    (value : pystr) : option pystr :=
  List.find
    (fun choice =>
       if case_sensitive then bool_decide (choice = value)
       else bool_decide (str_casefold choice = str_casefold value))
    choices.

(** What the decorators of [main] make of the command line: the parameters
    of the call, or [None] for a usage error.  [--max-retries] and
    [--log-level] are converted like the others; the body does not depend
    on their values. *)
Definition click_parse (cmd : CommandLine) : option Args :=
  course ← click_Choice [u "HV"; u "ST"] false (opt_course cmd);
  raceno ← int_of_text (opt_raceno cmd);
  _ ← match opt_max_retries cmd with
      | Some text => int_of_text text
      | None => Some 3%Z
      end;
  _ ← match opt_log_level cmd with
      | Some text =>
        click_Choice [u "DEBUG"; u "INFO"; u "WARNING"; u "ERROR"] true text
      | None => Some (u "INFO")
      end;
  Some {| arg_date := opt_date cmd; arg_course := course; arg_raceno := raceno;
          arg_out := opt_out cmd; arg_checkpoint := opt_checkpoint cmd |}.

Definition validate_course (course : pystr) : bool :=
  existsb (fun c => bool_decide (str_upper course = c)) VALID_COURSES.

(** [i < len(horses) and horses[i].傷病記錄 and horses[i].往績紀錄] *)
Definition has_details (horses : list HorseRecord) (i : nat) : bool :=
  match horses !! i with
  | Some horse =>
    match 傷病記錄 horse, 往績紀錄 horse with
    | _ :: _, _ :: _ => true
    | _, _ => false
    end
  | None => false
  end.

(** The [if horse_data.detail_url:] block: the list of records after it and
    the exception it raises, if any. *)
Definition scrape_one (scrapers : Scrapers) (i : nat) (horse_data : ToplineData)
    (horses : list HorseRecord) : list HorseRecord * option exn :=
  match detail_url horse_data with
  | Some url =>
    if truthy url then
      match scrape_horse_details scrapers i url with
      | Raised e => (horses, Some e)
      | Returned details =>
        let merged_data := details ∪ ToplineData_dump horse_data in
        match HorseRecord_init str_other merged_data with
        | None => (horses, Some ValidationError)
        | Some horse_record =>
          (if (i <? length horses)%nat then <[i := horse_record]> horses
           else horses ++ [horse_record], None)
        end
      end
    else (horses, None)
  | None => (horses, None)
  end.

(** [if checkpoint and (i + 1) % config["checkpoint_interval"] == 0:] *)
Definition maybe_checkpoint (config : Config) (checkpoint : option pystr) (i : nat)
    (horses : list HorseRecord) (fs : FileSystem) : FileSystem * option exn :=
  match checkpoint with
  | Some path =>
    if truthy path then
      if (cfg_checkpoint_interval config =? 0)%Z then (fs, Some ZeroDivisionError)
      else if ((Z.of_nat i + 1) mod cfg_checkpoint_interval config =? 0)%Z
           then ((save_checkpoint horses path fs).1, None)
           else (fs, None)
    else (fs, None)
  | None => (fs, None)
  end.

(** The body of the [try] inside the loop over the entrants. *)
Definition process_horse (config : Config) (checkpoint : option pystr)
    (scrapers : Scrapers) (i : nat) (horse_data : ToplineData)
    (st : list HorseRecord * FileSystem)
    : list HorseRecord * FileSystem * option exn :=
  let '(horses, fs) := st in
  if given checkpoint && has_details horses i then (horses, fs, None)
  else
    let '(horses, raised) := scrape_one scrapers i horse_data horses in
    match raised with
    | Some e => (horses, fs, Some e)
    | None =>
      let '(fs, raised) := maybe_checkpoint config checkpoint i horses fs in
      (horses, fs, raised)
    end.

(** [for i, horse_data in enumerate(topline_data)] with its
    [except Exception: continue]. *)
Fixpoint horse_loop (config : Config) (checkpoint : option pystr)
    (scrapers : Scrapers) (i : nat) (topline_data : list ToplineData)
    (st : list HorseRecord * FileSystem)
    : list HorseRecord * FileSystem * option exn :=
  match topline_data with
  | [] => (st, None)
  | horse_data :: rest =>
    let '(st, raised) := process_horse config checkpoint scrapers i horse_data st in
    match raised with
    | Some e =>
      if is_Exception e then horse_loop config checkpoint scrapers (S i) rest st
      else (st, Some e)
    | None => horse_loop config checkpoint scrapers (S i) rest st
    end
  end.

(** The records of a checkpoint turned back into topline data. *)
Definition resume_topline (horses : list HorseRecord) : option (list ToplineData) :=
  mapM (fun horse =>
          ToplineData_init str_other
            (<[u "detail_url" := PNone]> (HorseRecord_dump horse))) horses.

(** The outer [try] block up to and including [browser.close()]: the
    records and the file system it leaves, and what it raises, if anything. *)
Definition crawl (args : Args) (scrapers : Scrapers) (config : Config)
    (fs : FileSystem) : list HorseRecord * FileSystem * option exn :=
  let checkpoint := arg_checkpoint args in
  let horses :=
    match checkpoint with
    | Some path =>
      if truthy path && path_exists path fs
      then (load_checkpoint str_other path fs).1 else []
    | None => []
    end in
  match launch scrapers with
  | Some e => (horses, fs, Some e)
  | None =>
    let '(st, raised) :=
      let topline :=
        match horses with
        | [] => scrape_race scrapers
        | _ :: _ =>
          match resume_topline horses with
          | Some topline_data => Returned topline_data
          | None => Raised ValidationError
          end
        end in
      match topline with
      | Raised e => (horses, fs, Some e)
      | Returned topline_data =>
        let '(horses, fs, raised) :=
          horse_loop config checkpoint scrapers 0%nat topline_data (horses, fs) in
        match raised with
        | Some e => (horses, fs, Some e)
        | None => (horses, (save_final_output horses (arg_out args) fs).1, None)
        end
      end in
    match browser_close scrapers with
    | Some e => (st, Some e)
    | None => (st, raised)
    end
  end.

(** The body of [main]: the exit status of the process and the file
    system it leaves. *)
Definition main_body (args : Args) (scrapers : Scrapers) (env : Environ)
    (fs : FileSystem) : Z * FileSystem :=
  if negb (validate_date_format (arg_date args)) then (1%Z, fs)
  else if negb (validate_course (arg_course args)) then (1%Z, fs)
  else if negb (validate_race_number (arg_raceno args)) then (1%Z, fs)
  else
    let '(horses, fs, raised) := crawl args scrapers (get_config env) fs in
    match raised with
    | None => (0%Z, fs)
    | Some (SystemExit code) => (code, fs)
    | Some _ =>
      (1%Z,
       match arg_checkpoint args with
       | Some path => if truthy path then (save_checkpoint horses path fs).1 else fs
       | None => fs
       end)
    end.

(** The command [main]: click converts the options and calls the body; a
    usage error ends the process with exit status 2 before the body runs. *)
Definition main (cmd : CommandLine) (scrapers : Scrapers) (env : Environ)
    (fs : FileSystem) : Z * FileSystem :=
  match click_parse cmd with
  | Some args => main_body args scrapers env fs
  | None => (2%Z, fs)
  end.

End Main.

(** A fragment of [int]: the decimal numerals of 0 to 12 and nothing else. *)
Definition sample_int_of_text (text : pystr) : option Z :=
  List.find (fun n => bool_decide (str_int n = text)) (Z.of_nat <$> seq 0 13).

(* ================================================================== *)
(** * Properties *)

(** ** Strings *)

Lemma truthy_true (s : pystr) : truthy s = true <-> s <> [].
Proof. destruct s; simpl; split; congruence. Qed.

Lemma startswith_spec (p s : pystr) :
  startswith p s = true <-> exists post, s = p ++ post.
Proof.
  revert s; induction p as [|a p IH]; intros s; simpl.
  - split; [intros _; by exists s | done].
  - destruct s as [|b s].
    + split; [done | intros [post H]; discriminate].
    + rewrite andb_true_iff, N.eqb_eq, IH. split.
      * intros [-> [post ->]]. by exists post.
      * intros [post H]. injection H as -> ->. eauto.
Qed.

Lemma str_in_spec (needle hay : pystr) :
  str_in needle hay = true <-> substring needle hay.
Proof.
  unfold substring. induction hay as [|c hay IH]; simpl.
  - rewrite orb_false_r, startswith_spec. split.
    + intros [post H]. by exists [], post.
    + intros (pre & post & H). symmetry in H.
      apply app_eq_nil in H as [-> H]. simpl in H. by exists post.
  - rewrite orb_true_iff, startswith_spec, IH. split.
    + intros [[post H] | (pre & post & H)].
      * by exists [], post.
      * exists (c :: pre), post. simpl. by rewrite H.
    + intros (pre & post & H). destruct pre as [|c' pre].
      * left. by exists post.
      * right. injection H as _ H. by exists pre, post.
Qed.

Lemma substring_length (a b : pystr) : substring a b -> (length a <= length b)%nat.
Proof. intros (pre & post & ->). rewrite !length_app. lia. Qed.

(** ** HeaderMatcher *)

Lemma window_scan (e o : pystr) :
  existsb (fun i => str_in (take 2 (drop i e)) o) (seq 0 (length e - 1)) = true
  <-> exists w, window_of e w /\ substring w o.
Proof.
  rewrite existsb_exists. unfold window_of. split.
  - intros (i & Hi & Hin). apply in_seq in Hi. apply str_in_spec in Hin.
    exists (take 2 (drop i e)). split; [exists i; split; [lia | done] | done].
  - intros (w & (i & Hi & ->) & Hsub). exists i. split.
    + apply in_seq. lia.
    + by apply str_in_spec.
Qed.

Lemma window_length (e w : pystr) : window_of e w -> length w = 2%nat.
Proof.
  intros (i & Hi & ->). rewrite length_take, length_drop. lia.
Qed.

Lemma header_matches_iff (isalnum : N -> bool) (expected actual : pystr) :
  _header_matches isalnum expected actual = true
  <-> tiered_header_matches isalnum expected actual.
Proof.
  unfold _header_matches, tiered_header_matches, tier_exact, tier_containment,
    tier_word, tier_ideograph.
  case_bool_decide as H1; [tauto |].
  destruct (str_in expected actual || str_in actual expected) eqn:H2.
  { apply orb_true_iff in H2. rewrite !str_in_spec in H2. tauto. }
  apply orb_false_iff in H2 as [H2a H2b].
  assert (~ substring expected actual) as N2a
      by (rewrite <- str_in_spec; congruence).
  assert (~ substring actual expected) as N2b
      by (rewrite <- str_in_spec; congruence).
  cbv zeta. case_bool_decide as H3; [tauto |].
  set (e := strip_non_ideograph expected). set (o := strip_non_ideograph actual).
  destruct (truthy e && truthy o) eqn:H4.
  - apply andb_true_iff in H4 as [He Ho]. apply truthy_true in He, Ho.
    destruct (str_in e o || str_in o e) eqn:H5.
    { apply orb_true_iff in H5. rewrite !str_in_spec in H5. tauto. }
    apply orb_false_iff in H5 as [H5a H5b].
    assert (~ substring e o) as N5a by (rewrite <- str_in_spec; congruence).
    assert (~ substring o e) as N5b by (rewrite <- str_in_spec; congruence).
    destruct ((2 <=? length e)%nat && (2 <=? length o)%nat) eqn:H6.
    + rewrite window_scan. tauto.
    + split; [done |]. intros [|[|[|(_ & _ & [|[|(w & Hw & Hsub)]])]]]; try tauto.
      apply andb_false_iff in H6. pose proof (window_length _ _ Hw) as Hl.
      apply substring_length in Hsub. destruct Hw as (i & Hi & _).
      destruct H6 as [H6|H6]; apply Nat.leb_gt in H6; lia.
  - split; [done |]. apply andb_false_iff in H4.
    intros [|[|[|(He & Ho & _)]]]; try tauto.
    rewrite <- truthy_true in He, Ho. destruct H4; congruence.
Qed.

(** C3 (amended). [_header_matches] returns true exactly when one of four
    tiers succeeds: exact equality; containment in either direction;
    equality after stripping every character that is not a word character
    (alphanumeric or underscore); or, when both labels contain CJK
    ideographs, the ideograph-only strings contain one another or share a
    two-character window of the expected one.  The label "馬號" matches
    "馬號 (Horse No.)" and, "馬" being alphanumeric, does not match "騎師". *)
Theorem header_matches_tiers (isalnum : N -> bool)
    (Hma : isalnum 0x99AC = true) :
  (forall expected actual,
      _header_matches isalnum expected actual = true
      <-> tiered_header_matches isalnum expected actual) /\
  _header_matches isalnum (u "馬號") (u "馬號 (Horse No.)") = true /\
  _header_matches isalnum (u "馬號") (u "騎師") = false.
Proof.
  split; [apply header_matches_iff |]. split; [reflexivity |].
  unfold _header_matches.
  change (u "馬號") with [0x99AC; 0x865F]. change (u "騎師") with [0x9A0E; 0x5E2B].
  rewrite bool_decide_eq_false_2 by discriminate.
  change (str_in [0x99AC; 0x865F] [0x9A0E; 0x5E2B]) with false.
  change (str_in [0x9A0E; 0x5E2B] [0x99AC; 0x865F]) with false.
  cbv zeta. simpl orb. cbv iota.
  rewrite bool_decide_eq_false_2; [reflexivity |].
  unfold strip_non_word. simpl List.filter. unfold is_word at 1. rewrite Hma. simpl.
  destruct (is_word isalnum 0x865F), (is_word isalnum 0x9A0E), (is_word isalnum 0x5E2B);
    discriminate.
Qed.

Lemma header_matches_tiers_witness :
  sample_isalnum 0x99AC = true /\
  _header_matches sample_isalnum (u "馬號") (u "騎師") = false.
Proof.
  split; [reflexivity |].
  apply (header_matches_tiers sample_isalnum). reflexivity.
Defined.

(** C3, as stated, fails on an underscore: tier 3 read as "strip every
    non-alphanumeric character" accepts the pair ("a_b", "ab"), which the
    code rejects because [\w] keeps the underscore. *)
Lemma header_matches_alnum_tier_counterexample :
  spec_header_matches sample_isalnum (u "a_b") (u "ab") /\
  _header_matches sample_isalnum (u "a_b") (u "ab") = false.
Proof.
  split; [| reflexivity].
  right; right; left. reflexivity.
Qed.

(** ** TableLocator *)

Section LocatorProofs.

Variable isalnum : N -> bool.

Lemma find_app_first {A} (f : A -> bool) (l1 l2 : list A) :
  List.find f (l1 ++ l2) =
  match List.find f l1 with Some x => Some x | None => List.find f l2 end.
Proof. induction l1 as [|x l1 IH]; simpl; [done |]. by destruct (f x). Qed.

Lemma find_pointwise {A} (f g : A -> bool) (l : list A) :
  (forall x, f x = g x) -> List.find f l = List.find g l.
Proof. intros H. induction l as [|a l IH]; simpl; [done |]. by rewrite H, IH. Qed.

Lemma find_first {A} (f : A -> bool) (l : list A) (x : A) :
  List.find f l = Some x ->
  exists pre post, l = pre ++ x :: post /\ f x = true /\
                   forall y, In y pre -> f y = false.
Proof.
  induction l as [|a l IH]; simpl; [done |].
  destruct (f a) eqn:Ha.
  - intros [= ->]. exists [], l. by repeat split.
  - intros (pre & post & -> & Hx & Hpre)%IH. exists (a :: pre), post.
    repeat split; [done |]. intros y [<- | Hy]; auto.
Qed.

Lemma find_none_iff {A} (f : A -> bool) (l : list A) :
  List.find f l = None <-> forall y, In y l -> f y = false.
Proof.
  split; [apply find_none |].
  induction l as [|a l IH]; simpl; [done |]. intros H.
  rewrite (H a) by auto. apply IH. auto.
Qed.

Lemma find_first_iff {A} (f : A -> bool) (l : list A) (r : option A) :
  List.find f l = r <->
  match r with
  | Some x => f x = true /\
              exists pre post, l = pre ++ x :: post /\ forall y, In y pre -> f y = false
  | None => forall y, In y l -> f y = false
  end.
Proof.
  destruct r as [x|]; [| apply find_none_iff]. split.
  - intros (pre & post & Heq & Hx & Hpre)%find_first. eauto.
  - intros (Hx & pre & post & -> & Hpre).
    rewrite find_app_first, (proj2 (find_none_iff f pre) Hpre). simpl.
    by rewrite Hx.
Qed.

Lemma find_concat_same {A} (f : A -> bool) (tables : list A) (ls : list (list A)) :
  (forall l, In l ls -> l = tables) ->
  List.find f (concat ls ++ tables) = List.find f tables.
Proof.
  induction ls as [|l ls IH]; intros H; simpl; [done |].
  rewrite <- app_assoc, find_app_first, IH by (intros l' Hl'; apply H; by right).
  rewrite (H l) by by left. by destruct (List.find f tables).
Qed.

Lemma filter_length_S {A} (f : A -> bool) (l : list A) (n : nat) :
  (S n <= length (List.filter f l))%nat <->
  exists l1 x l2, l = l1 ++ x :: l2 /\ f x = true /\
                  (n <= length (List.filter f l2))%nat.
Proof.
  induction l as [|a l IH]; simpl.
  - split; [lia |]. intros (l1 & x & l2 & H & _). by destruct l1.
  - destruct (f a) eqn:Ha; simpl.
    + split.
      * intros H. exists [], a, l. repeat split; [done | lia].
      * intros (l1 & x & l2 & H & Hx & Hn). destruct l1 as [|a' l1].
        -- injection H as -> ->. lia.
        -- injection H as -> ->.
           assert (S n <= length (List.filter f (l1 ++ x :: l2)))%nat; [| lia].
           apply IH. by exists l1, x, l2.
    + rewrite IH. split.
      * intros (l1 & x & l2 & -> & Hx & Hn). exists (a :: l1), x, l2. done.
      * intros (l1 & x & l2 & H & Hx & Hn). destruct l1 as [|a' l1].
        -- injection H as -> ->. congruence.
        -- injection H as -> ->. by exists l1, x, l2.
Qed.

Lemma filter_length_three {A} (f : A -> bool) (l : list A) :
  (3 <= length (List.filter f l))%nat <->
  exists l1 e1 l2 e2 l3 e3 l4,
    l = l1 ++ e1 :: l2 ++ e2 :: l3 ++ e3 :: l4 /\
    f e1 = true /\ f e2 = true /\ f e3 = true.
Proof.
  split.
  - intros (l1 & e1 & r1 & -> & H1 & H)%filter_length_S.
    apply filter_length_S in H as (l2 & e2 & r2 & -> & H2 & H).
    apply filter_length_S in H as (l3 & e3 & l4 & -> & H3 & _).
    by exists l1, e1, l2, e2, l3, e3, l4.
  - intros (l1 & e1 & l2 & e2 & l3 & e3 & l4 & -> & H1 & H2 & H3).
    apply filter_length_S. exists l1, e1, (l2 ++ e2 :: l3 ++ e3 :: l4).
    repeat split; [done |].
    apply filter_length_S. exists l2, e2, (l3 ++ e3 :: l4).
    repeat split; [done |].
    apply filter_length_S. exists l3, e3, l4. repeat split; [done | lia].
Qed.

Lemma header_cells_of_spec (table : Table) :
  header_cells_of table = spec_header_cells table.
Proof.
  unfold header_cells_of, spec_header_cells.
  destruct (table_th table); simpl; [| done]. by destruct (table_tr table).
Qed.

Lemma table_has_headers_count (table : Table) (expected_headers : list pystr) :
  _table_has_headers isalnum table expected_headers
  = (3 <=? found_headers isalnum (header_texts_of (header_cells_of table))
             expected_headers)%nat.
Proof.
  unfold _table_has_headers.
  destruct (header_cells_of table) eqn:E; [| done].
  unfold header_texts_of, found_headers. simpl.
  induction expected_headers; simpl; auto.
Qed.

Lemma label_matched_spec (table : Table) (expected : pystr) :
  existsb (_header_matches isalnum expected)
          (header_texts_of (header_cells_of table)) = true
  <-> label_matched isalnum table expected.
Proof.
  rewrite existsb_exists, header_cells_of_spec.
  unfold label_matched, header_texts_of. split.
  - intros (t & Ht & Hm). apply filter_In in Ht as [Ht Hne].
    apply in_map_iff in Ht as (cell & <- & Hc). exists cell.
    by rewrite <- truthy_true, <- header_matches_iff.
  - intros (cell & Hc & Hne & Hm). exists (cell_text cell).
    split; [| by apply header_matches_iff]. apply filter_In.
    split; [by apply in_map |]. by apply truthy_true.
Qed.

Lemma table_has_headers_qualifies (table : Table) (expected_headers : list pystr) :
  _table_has_headers isalnum table expected_headers = true
  <-> qualifies isalnum table expected_headers.
Proof.
  rewrite table_has_headers_count, Nat.leb_le. unfold found_headers, qualifies.
  rewrite filter_length_three. split.
  - intros (l1 & e1 & l2 & e2 & l3 & e3 & l4 & -> & H1 & H2 & H3).
    exists l1, e1, l2, e2, l3, e3, l4. by rewrite <- !label_matched_spec.
  - intros (l1 & e1 & l2 & e2 & l3 & e3 & l4 & -> & H1 & H2 & H3).
    exists l1, e1, l2, e2, l3, e3, l4. by rewrite !label_matched_spec.
Qed.

Lemma table_has_headers_not_qualifies (table : Table) (expected_headers : list pystr) :
  _table_has_headers isalnum table expected_headers = false
  <-> ~ qualifies isalnum table expected_headers.
Proof. rewrite <- table_has_headers_qualifies. by destruct (_table_has_headers _ _ _). Qed.

Lemma find_first_qualifying (expected_headers : list pystr) (tables : list Table)
    (r : option Table) :
  first_qualifying isalnum expected_headers tables r
  <-> r = List.find (fun t => _table_has_headers isalnum t expected_headers) tables.
Proof.
  split.
  - intros H. symmetry. apply find_first_iff. destruct r as [table|]; simpl in H.
    + destruct H as (Hq & pre & post & -> & Hpre).
      split; [by apply table_has_headers_qualifies |].
      exists pre, post. split; [done |].
      intros t Ht. by apply table_has_headers_not_qualifies, Hpre.
    + intros t Ht. by apply table_has_headers_not_qualifies, H.
  - intros H. symmetry in H. apply find_first_iff in H.
    destruct r as [table|]; simpl.
    + destruct H as (Hq & pre & post & -> & Hpre).
      split; [by apply table_has_headers_qualifies |].
      exists pre, post. split; [done |].
      intros t Ht. by apply table_has_headers_not_qualifies, Hpre.
    + intros t Ht. by apply table_has_headers_not_qualifies, H.
Qed.

Lemma find_in_selectors_scan (page : Page) (sels expected_headers : list pystr) :
  find_in_selectors isalnum page sels expected_headers
  = List.find (fun t => _table_has_headers isalnum t expected_headers)
      (concat (List.map (fun sel => default [] (query_tables page sel)) sels)).
Proof.
  induction sels as [|sel sels IH]; simpl; [done |].
  rewrite find_app_first. destruct (query_tables page sel) as [tables|]; simpl.
  - by destruct (List.find _ tables).
  - done.
Qed.

Lemma find_table_by_headers_scan (page : Page) (expected_headers : list pystr)
    (table_selectors : option (list pystr)) :
  find_table_by_headers isalnum page expected_headers table_selectors
  = List.find (fun t => _table_has_headers isalnum t expected_headers)
      (scanned_tables page (default [SELECTORS_race_table] table_selectors)).
Proof.
  unfold find_table_by_headers, scanned_tables.
  rewrite find_in_selectors_scan, find_app_first.
  replace (match table_selectors with Some l => l | None => [SELECTORS_race_table] end)
    with (default [SELECTORS_race_table] table_selectors) by by destruct table_selectors.
  destruct (List.find _ (concat _)); [done |].
  by destruct (query_tables page (u "table")).
Qed.

Lemma scanned_tables_same (page : Page) (table_selectors : list pystr)
    (tables : list Table) (f : Table -> bool) :
  (forall sel, In sel table_selectors -> query_tables page sel = Some tables) ->
  query_tables page (u "table") = Some tables ->
  List.find f (scanned_tables page table_selectors) = List.find f tables.
Proof.
  intros Hsel Hall. unfold scanned_tables. rewrite Hall. simpl.
  apply find_concat_same. intros l (sel & <- & Hin)%in_map_iff.
  by rewrite Hsel.
Qed.

End LocatorProofs.

(** C4 (amended). A table qualifies when at least three entries of the
    expected labels have a matching header cell, the header cells being the
    header-tagged cells of the table or, when it has none, the cells of its
    first row.  [find_table_by_headers] returns the first qualifying table
    in the order the tables are scanned: the tables each selector yields,
    selector by selector, then all tables of the page; it returns the value
    [None] exactly when no scanned table qualifies, and never a table that
    does not qualify.  When every query yields the same list of tables, as
    with the default selector, which selects every table of the page in
    page order, the result is the first qualifying table of that list. *)
Theorem find_table_by_headers_first_in_scan_order (isalnum : N -> bool) (page : Page)
    (expected_headers : list pystr) (table_selectors : option (list pystr)) :
  let selectors := default [SELECTORS_race_table] table_selectors in
  let result := find_table_by_headers isalnum page expected_headers table_selectors in
  (forall r, first_qualifying isalnum expected_headers
               (scanned_tables page selectors) r <-> r = result) /\
  (forall tables,
     (forall sel, In sel selectors -> query_tables page sel = Some tables) ->
     query_tables page (u "table") = Some tables ->
     forall r, first_qualifying isalnum expected_headers tables r <-> r = result).
Proof.
  intros selectors result. subst result selectors.
  rewrite find_table_by_headers_scan. split.
  - intros r. apply find_first_qualifying.
  - intros tables Hsel Hall r.
    rewrite (scanned_tables_same page _ tables _ Hsel Hall).
    apply find_first_qualifying.
Qed.

(** A page with three tables, selected in page order by every query: the
    first has two of the seventeen expected labels and is passed over, the
    second is returned although the third qualifies too. *)
Lemma find_table_by_headers_first_in_scan_order_witness :
  let two := {| table_th := text_cell <$> [u "馬名"; u "騎師"; u "日期"];
                table_tr := [] |} in
  let first := {| table_th := [];
                  table_tr := [text_cell <$> [u "編號"; u "馬名"; u "負磅"]] |} in
  let second := {| table_th := text_cell <$> [u "馬名"; u "負磅"; u "評分"; u "配備"];
                   table_tr := [] |} in
  let page := {| query_tables := fun _ => Some [two; first; second];
                 query_element := fun _ => None;
                 title := None; page_inner_text := None |} in
  found_headers sample_isalnum (header_texts_of (header_cells_of two))
                EXPECTED_HEADERS = 2%nat /\
  find_table_by_headers sample_isalnum page EXPECTED_HEADERS None = Some first /\
  first_qualifying sample_isalnum EXPECTED_HEADERS [two; first; second] (Some first).
Proof.
  intros two first second page.
  split; [vm_compute; reflexivity |]. split; [vm_compute; reflexivity |].
  apply (proj2 (find_table_by_headers_first_in_scan_order sample_isalnum page
                  EXPECTED_HEADERS None) [two; first; second]);
    [intros sel _ | |]; vm_compute; reflexivity.
Defined.

(** C4, as stated, fails for page order: the page holds the tables [A] and
    [B] in this order and both qualify, but the selector given to the
    locator selects [B] only, so [B] is returned although [A] comes first
    on the page. *)
Lemma find_table_by_headers_page_order_counterexample :
  let expected := [u "馬名"; u "騎師"; u "練馬師"] in
  let A := {| table_th := [];
              table_tr := [text_cell <$> [u "馬名"; u "騎師"; u "練馬師"]] |} in
  let B := {| table_th := text_cell <$> [u "馬名"; u "騎師"; u "練馬師"; u "負磅"];
              table_tr := [] |} in
  let page := {| query_tables := fun sel =>
                   if bool_decide (sel = u ".raceTable table") then Some [B]
                   else if bool_decide (sel = u "table") then Some [A; B]
                   else Some [];
                 query_element := fun _ => None;
                 title := None; page_inner_text := None |} in
  query_tables page (u "table") = Some [A; B] /\
  qualifies sample_isalnum A expected /\
  find_table_by_headers sample_isalnum page expected (Some [u ".raceTable table"])
  = Some B /\
  ~ first_qualifying sample_isalnum expected [A; B] (Some B).
Proof.
  intros expected A B page.
  assert (qualifies sample_isalnum A expected) as HA.
  { apply table_has_headers_qualifies. vm_compute. reflexivity. }
  split; [vm_compute; reflexivity |]. split; [exact HA |].
  split; [vm_compute; reflexivity |].
  intros (_ & pre & post & Heq & Hpre).
  destruct pre as [|t pre].
  - injection Heq as HAB _. vm_compute in HAB. discriminate.
  - injection Heq as <- _. apply (Hpre A); [by left | exact HA].
Qed.

(** ** ColumnMap *)

Section ColumnMapProofs.

Variable isalnum : N -> bool.
Variable expected_headers : list pystr.

Lemma cell_claims_spec (cell : Element) (cells : list Element) (label : pystr) :
  cell_claims isalnum expected_headers cell label = true
  <-> column_claims isalnum expected_headers (cell :: cells) 0 label.
Proof.
  unfold cell_claims, column_claims. simpl.
  rewrite andb_true_iff, truthy_true, bool_decide_eq_true. split.
  - intros [Hne Hf]. by exists cell.
  - by intros (c & [= <-] & Hne & Hf).
Qed.

Lemma map_header_cell_lookup (column_map : gmap (list N) nat) (k : nat)
    (cell : Element) (label : pystr) :
  map_header_cell isalnum expected_headers column_map k cell !! label =
  if cell_claims isalnum expected_headers cell label
  then Some k else column_map !! label.
Proof.
  unfold map_header_cell, cell_claims.
  destruct (truthy (cell_text cell)); simpl; [| done].
  destruct (List.find _ expected_headers) as [e|].
  - destruct (decide (e = label)) as [->|Hne].
    + by rewrite lookup_insert_eq, bool_decide_eq_true_2.
    + rewrite lookup_insert_ne by done.
      rewrite bool_decide_eq_false_2; [done | congruence].
  - by rewrite bool_decide_eq_false_2.
Qed.

Lemma column_claims_cons (cell : Element) (cells : list Element) (j : nat)
    (label : pystr) :
  column_claims isalnum expected_headers (cell :: cells) (S j) label
  <-> column_claims isalnum expected_headers cells j label.
Proof. unfold column_claims. by simpl. Qed.

(** The map after the loop: a label is bound to the last column that claims
    it, or keeps its earlier binding when no column does. *)
Lemma map_header_cells_lookup (cells : list Element)
    (column_map : gmap (list N) nat) (k : nat) (label : pystr) (i : nat) :
  map_header_cells isalnum expected_headers column_map k cells !! label = Some i
  <-> (exists j, i = (k + j)%nat /\
         column_claims isalnum expected_headers cells j label /\
         forall j', (j < j')%nat ->
                    ~ column_claims isalnum expected_headers cells j' label)
      \/ (column_map !! label = Some i /\
          forall j, ~ column_claims isalnum expected_headers cells j label).
Proof.
  revert column_map k. induction cells as [|cell cells IH]; intros column_map k.
  - simpl. split.
    + intros H. right. split; [done |]. intros j (c & Hc & _). done.
    + intros [(j & _ & (c & Hc & _) & _) | [H _]]; done.
  - simpl. rewrite IH, map_header_cell_lookup. clear IH.
    pose proof (cell_claims_spec cell cells label) as Hhead.
    assert (forall j, column_claims isalnum expected_headers cells j label
                      <-> column_claims isalnum expected_headers (cell :: cells) (S j) label)
      as Htail by (intros j; symmetry; apply column_claims_cons).
    destruct (cell_claims isalnum expected_headers cell label); split.
    + intros [(j & -> & Hj & Hlast) | [Hcm Hnone]].
      * left. exists (S j). split; [lia |]. split; [by apply Htail |].
        intros [|j'] Hlt; [lia |]. rewrite <- Htail. apply Hlast. lia.
      * injection Hcm as <-. left. exists 0%nat. split; [lia |].
        split; [by apply Hhead |].
        intros [|j'] Hlt; [lia |]. rewrite <- Htail. apply Hnone.
    + intros [(j & -> & Hj & Hlast) | [Hcm Hnone]].
      * destruct j as [|j].
        -- right. split; [f_equal; lia |]. intros j.
           rewrite Htail. apply Hlast. lia.
        -- left. exists j. split; [lia |]. split; [by apply Htail |].
           intros j' Hlt. rewrite Htail. apply Hlast. lia.
      * exfalso. apply (Hnone 0%nat). by apply Hhead.
    + intros [(j & -> & Hj & Hlast) | [Hcm Hnone]].
      * left. exists (S j). split; [lia |]. split; [by apply Htail |].
        intros [|j'] Hlt; [lia |]. rewrite <- Htail. apply Hlast. lia.
      * right. split; [done |]. intros [|j].
        -- rewrite <- Hhead. done.
        -- rewrite <- Htail. apply Hnone.
    + intros [(j & -> & Hj & Hlast) | [Hcm Hnone]].
      * destruct j as [|j].
        -- apply Hhead in Hj. done.
        -- left. exists j. split; [lia |]. split; [by apply Htail |].
           intros j' Hlt. rewrite Htail. apply Hlast. lia.
      * right. split; [done |]. intros j. rewrite Htail. apply Hnone.
Qed.

End ColumnMapProofs.

(** C1 (amended). In the map built by [get_header_column_map] a label is
    bound to column [i] exactly when column [i] of the first row claims the
    label (its text is non-empty and the label is the first expected label
    it matches) and no later column claims it: the last claiming column
    wins.  Each label is a key of the map at most once. *)
Theorem get_header_column_map_last_wins (isalnum : N -> bool) (table : Table)
    (expected_headers : list pystr) :
  (forall label i,
     get_header_column_map isalnum table expected_headers !! label = Some i
     <-> column_claims isalnum expected_headers (first_row table) i label /\
         forall j, (i < j)%nat ->
           ~ column_claims isalnum expected_headers (first_row table) j label) /\
  NoDup (List.map fst
           (map_to_list (get_header_column_map isalnum table expected_headers))).
Proof.
  split; [| apply NoDup_fst_map_to_list].
  intros label i. unfold get_header_column_map, first_row.
  destruct (table_tr table) as [|header_row rows].
  - rewrite lookup_empty. split; [done |]. intros [(c & Hc & _) _]. done.
  - rewrite map_header_cells_lookup, lookup_empty. split.
    + intros [(j & -> & H) | [H _]]; done.
    + intros H. left. by exists i.
Qed.

(** C1, as stated, fails when two columns claim one label: with the header
    row ["馬名"; "馬名"] both columns match "馬名", column 0 is the first,
    and the map binds the label to column 1. *)
Lemma get_header_column_map_first_wins_counterexample :
  let cell := Elem (Some (u "馬名")) in
  let table := {| table_th := []; table_tr := [[cell; cell]] |} in
  _header_matches sample_isalnum (u "馬名") (cell_text cell) = true /\
  get_header_column_map sample_isalnum table [u "馬名"] !! u "馬名" = Some 1%nat /\
  get_header_column_map sample_isalnum table [u "馬名"] !! u "馬名" <> Some 0%nat.
Proof. vm_compute. repeat split; congruence. Qed.

(** ** RetryExecutor *)

Lemma effective_setting_int_or (argument setting : option Z) (builtin : Z) :
  int_or argument (default builtin setting) = effective_setting argument setting builtin.
Proof.
  unfold int_or, effective_setting, configured.
  destruct argument as [v|], setting as [n|]; simpl; try done;
    destruct (Z.eqb_spec v 0); destruct (decide (v = 0%Z)); done.
Qed.

Lemma effective_setting_configured (setting : option Z) (builtin : Z) :
  effective_setting (Some (configured setting builtin)) setting builtin
  = effective_setting None setting builtin.
Proof. unfold effective_setting. by destruct (decide _). Qed.

Section RetryProofs.

Context {W A : Type}.
Variable func : W -> outcome A * W.
Variable randint : Z -> Z -> W -> Z * W.
Variable sleep_ms : Z -> W -> outcome W.

#[local] Open Scope Z_scope.

Lemma retry_loop_calls_le (remaining : nat) (attempt M B D : Z)
    (last : option exn) (w : W) :
  (calls (retry_loop func randint sleep_ms remaining attempt M B D last w).1.2
   <= remaining)%nat.
Proof.
  revert attempt last w. induction remaining as [|n IH]; intros attempt last w.
  - unfold calls. simpl. lia.
  - simpl. destruct (func w) as [[a|e] w1]; [unfold calls; simpl; lia |].
    destruct (is_Exception e); [| unfold calls; simpl; lia].
    destruct (attempt <? M).
    + destruct (randint 0 1000 w1) as [jitter w2].
      destruct (_ <? 0); [unfold calls; simpl; lia |].
      destruct (sleep_ms _ w2) as [w3|refused]; [| unfold calls; simpl; lia].
      specialize (IH (attempt + 1) (Some e) w3).
      destruct (retry_loop _ _ _ _ _ _ _ _ _ _) as [[out trace] w4].
      unfold calls in *. simpl in *. lia.
    + specialize (IH (attempt + 1) (Some e) w1).
      destruct (retry_loop _ _ _ _ _ _ _ _ _ _) as [[out trace] w3].
      unfold calls in *. simpl in *. lia.
Qed.

Hypothesis randint_range : forall w, 0 <= (randint 0 1000 w).1 <= 1000.

Lemma backoff_delay_range (attempt B D jitter : Z) :
  0 <= B -> 0 <= D -> 0 <= attempt -> 0 <= jitter ->
  0 <= Z.min (B * 2 ^ attempt + jitter) D <= D.
Proof.
  intros HB HD Hatt Hj. split; [| apply Z.le_min_r].
  apply Z.min_glb; [| done].
  assert (0 <= 2 ^ attempt) by (apply Z.pow_nonneg; lia). nia.
Qed.

Lemma retry_loop_run (remaining : nat) (attempt M B D : Z)
    (last : option exn) (w : W) :
  0 <= B -> 0 <= D ->
  (forall d w, 0 <= d <= D -> exists w', sleep_ms d w = Returned w') ->
  0 <= attempt ->
  Z.of_nat remaining = M - attempt + 1 -> (0 < remaining)%nat ->
  let r := retry_loop func randint sleep_ms remaining attempt M B D last w in
  retry_run M B D attempt r.1.2 r.1.1.
Proof.
  intros HB HD Hsleep. revert attempt last w.
  induction remaining as [|n IH]; intros attempt last w Hatt Hrem Hpos; [lia |].
  simpl. destruct (func w) as [[a|e] w1].
  { simpl. apply run_success. lia. }
  destruct (is_Exception e) eqn:He.
  2:{ simpl. apply run_uncaught; [lia | done]. }
  destruct (attempt <? M) eqn:Hlt.
  - apply Z.ltb_lt in Hlt.
    pose proof (randint_range w1) as Hj.
    destruct (randint 0 1000 w1) as [jitter w2]. simpl in Hj.
    pose proof (backoff_delay_range attempt B D jitter HB HD Hatt (proj1 Hj))
      as Hdelay.
    rewrite (proj2 (Z.ltb_ge _ _) (proj1 Hdelay)).
    destruct (Hsleep _ w2 Hdelay) as [w3 ->].
    specialize (IH (attempt + 1) (Some e) w3).
    destruct (retry_loop _ _ _ _ _ _ _ _ _ _) as [[out trace] w4]. simpl in *.
    apply run_retry; [done | done | done |]. apply IH; lia.
  - apply Z.ltb_ge in Hlt. assert (n = 0%nat) as -> by lia.
    simpl. assert (attempt = M) as -> by lia. by apply run_exhausted.
Qed.

Lemma retry_loop_all_fail (remaining : nat) (attempt M B D : Z)
    (last : option exn) (w : W) :
  (forall w, exists e w', func w = (Raised e, w') /\ is_Exception e = true) ->
  0 <= B -> 0 <= D ->
  (forall d w, 0 <= d <= D -> exists w', sleep_ms d w = Returned w') ->
  0 <= attempt ->
  calls (retry_loop func randint sleep_ms remaining attempt M B D last w).1.2
  = remaining.
Proof.
  intros Hfail HB HD Hsleep. revert attempt last w.
  induction remaining as [|n IH]; intros attempt last w Hatt; [done |].
  simpl. destruct (Hfail w) as (e & w1 & -> & ->).
  destruct (attempt <? M).
  - pose proof (randint_range w1) as Hj.
    destruct (randint 0 1000 w1) as [jitter w2]. simpl in Hj.
    pose proof (backoff_delay_range attempt B D jitter HB HD Hatt (proj1 Hj))
      as Hdelay.
    rewrite (proj2 (Z.ltb_ge _ _) (proj1 Hdelay)).
    destruct (Hsleep _ w2 Hdelay) as [w3 ->].
    specialize (IH (attempt + 1) (Some e) w3).
    destruct (retry_loop _ _ _ _ _ _ _ _ _ _) as [[out trace] w4].
    unfold calls in *. simpl in *. rewrite IH; lia.
  - specialize (IH (attempt + 1) (Some e) w1).
    destruct (retry_loop _ _ _ _ _ _ _ _ _ _) as [[out trace] w3].
    unfold calls in *. simpl in *. rewrite IH; lia.
Qed.

End RetryProofs.

Lemma retry_with_backoff_effective {W A : Type} (func : W -> outcome A * W)
    (randint : Z -> Z -> W -> Z * W) (sleep_ms : Z -> W -> outcome W)
    (env : Environ) (max_retries base_delay_ms max_delay_ms : option Z) (w : W) :
  retry_with_backoff func randint sleep_ms env max_retries base_delay_ms max_delay_ms w
  = retry_loop func randint sleep_ms
      (Z.to_nat (effective_setting max_retries (MAX_RETRIES env) 3 + 1)) 0%Z
      (effective_setting max_retries (MAX_RETRIES env) 3)
      (effective_setting base_delay_ms (RETRY_BASE_DELAY_MS env) 1000)
      (effective_setting max_delay_ms (RETRY_MAX_DELAY_MS env) 5000) None w.
Proof.
  unfold retry_with_backoff, get_config. simpl.
  by rewrite !effective_setting_int_or.
Qed.

(** C5 (amended). Let [max_attempts], [base_delay] and [max_delay] be the
    values the call works with: the argument when it is given and is not
    zero, else the environment variable when it is set, else 3, 1000 and
    5000.  Let them be non-negative, and let the interpreter accept every
    delay between 0 and [max_delay].  Then [retry_with_backoff] calls the
    operation at most [max_attempts + 1] times; a successful call ends the
    run with its result; when call number [max_attempts] fails too its
    error is the one raised; and the sleep after failed attempt [attempt]
    is [min (base_delay * 2 ^ attempt + jitter) max_delay] with
    [0 <= jitter <= 1000]. *)
Theorem retry_with_backoff_run {W A : Type} (func : W -> outcome A * W)
    (randint : Z -> Z -> W -> Z * W) (sleep_ms : Z -> W -> outcome W)
    (env : Environ) (max_retries base_delay_ms max_delay_ms : option Z) (w : W)
    (Hrand : forall w, (0 <= (randint 0 1000 w).1 <= 1000)%Z)
    (HM : (0 <= effective_setting max_retries (MAX_RETRIES env) 3)%Z)
    (HB : (0 <= effective_setting base_delay_ms (RETRY_BASE_DELAY_MS env) 1000)%Z)
    (HD : (0 <= effective_setting max_delay_ms (RETRY_MAX_DELAY_MS env) 5000)%Z)
    (Hsleep : forall d w,
       (0 <= d <= effective_setting max_delay_ms (RETRY_MAX_DELAY_MS env) 5000)%Z ->
       exists w', sleep_ms d w = Returned w') :
  let max_attempts := effective_setting max_retries (MAX_RETRIES env) 3 in
  let base_delay := effective_setting base_delay_ms (RETRY_BASE_DELAY_MS env) 1000 in
  let max_delay := effective_setting max_delay_ms (RETRY_MAX_DELAY_MS env) 5000 in
  let r := retry_with_backoff func randint sleep_ms env
             max_retries base_delay_ms max_delay_ms w in
  retry_run max_attempts base_delay max_delay 0 r.1.2 r.1.1 /\
  (calls r.1.2 <= Z.to_nat (max_attempts + 1))%nat.
Proof.
  intros M B D r. subst r. rewrite retry_with_backoff_effective. split.
  - apply retry_loop_run; try done; lia.
  - apply retry_loop_calls_le.
Qed.

(** An operation on a call counter: it fails twice, then returns the
    number of earlier calls.  The arguments differ from the configured
    values, and the second delay reaches the cap. *)
Lemma retry_with_backoff_run_witness :
  let func := fun n : nat =>
    (if (n <? 2)%nat then Raised (Exception (u "timeout")) else Returned n, S n) in
  let randint := fun (_ _ : Z) (n : nat) => (250%Z, n) in
  let env := {| MAX_RETRIES := Some 7%Z; RETRY_BASE_DELAY_MS := Some 50%Z;
                RETRY_MAX_DELAY_MS := Some 60000%Z; CHECKPOINT_INTERVAL := None |} in
  let r := retry_with_backoff func randint bounded_clock env
             (Some 3%Z) (Some 200%Z) (Some 600%Z) 0%nat in
  r.1.1 = Returned 2%nat /\
  r.1.2 = [EvCall (Raised (Exception (u "timeout"))); EvSleep 450;
           EvCall (Raised (Exception (u "timeout"))); EvSleep 600;
           EvCall (Returned 2%nat)] /\
  retry_run 3 200 600 0 r.1.2 r.1.1 /\ (calls r.1.2 <= 4)%nat.
Proof.
  intros func randint env r.
  split; [reflexivity |]. split; [reflexivity |].
  apply (retry_with_backoff_run func randint bounded_clock env
           (Some 3%Z) (Some 200%Z) (Some 600%Z) 0%nat).
  - intros n. simpl. lia.
  - simpl. lia.
  - simpl. lia.
  - simpl. lia.
  - intros d n Hd. exists n. unfold bounded_clock.
    destruct (Z.ltb_spec (d * 1000000) (2 ^ 63)) as [_ | Hbig]; [reflexivity |].
    simpl in Hd. lia.
Defined.

(** C5, as stated for every value of the parameters, fails.  With
    [max_retries = 0] and nothing set in the environment, an operation that
    always fails is called four times, not at most [0 + 1].  With a
    negative [max_retries] the operation is not called and the error raised
    is the [TypeError] of [raise None].  With a negative [base_delay_ms] or
    [max_delay_ms] the first backoff raises [ValueError], which is not the
    error of the operation.  With [base_delay_ms] and [max_delay_ms] of
    [10 ^ 400] the first backoff raises [OverflowError] after one call,
    although three retries were asked for. *)
Lemma retry_with_backoff_parameters_counterexample :
  let timeout := Exception (u "timeout") in
  let func := fun _ : unit => (Raised (A := unit) timeout, tt) in
  let randint := fun (_ _ : Z) (_ : unit) => (0%Z, tt) in
  let retry := retry_with_backoff func randint bounded_clock unset_environ in
  let zero := retry (Some 0%Z) (Some 1000%Z) (Some 5000%Z) tt in
  let no_attempt := retry (Some (-1)%Z) (Some 1000%Z) (Some 5000%Z) tt in
  let negative_base := retry (Some 3%Z) (Some (-5000)%Z) (Some 5000%Z) tt in
  let negative_cap := retry (Some 3%Z) (Some 1000%Z) (Some (-5)%Z) tt in
  let huge := retry (Some 3%Z) (Some (10 ^ 400)%Z) (Some (10 ^ 400)%Z) tt in
  (calls zero.1.2 = 4%nat /\ ~ (calls zero.1.2 <= Z.to_nat (0 + 1))%nat) /\
  (no_attempt.1.1 = Raised TypeError_raise_None /\ no_attempt.1.2 = [] /\
   ~ retry_run (-1) 1000 5000 0 no_attempt.1.2 no_attempt.1.1) /\
  (negative_base.1.1 = Raised ValueError_sleep /\
   negative_base.1.2 = [EvCall (Raised timeout)] /\
   ~ retry_run 3 (-5000) 5000 0 negative_base.1.2 negative_base.1.1) /\
  (negative_cap.1.1 = Raised ValueError_sleep /\
   negative_cap.1.2 = [EvCall (Raised timeout)] /\
   ~ retry_run 3 1000 (-5) 0 negative_cap.1.2 negative_cap.1.1) /\
  (huge.1.1 = Raised OverflowError_sleep /\ huge.1.2 = [EvCall (Raised timeout)] /\
   ~ retry_run 3 (10 ^ 400) (10 ^ 400) 0 huge.1.2 huge.1.1) /\
  ValueError_sleep <> timeout /\ OverflowError_sleep <> timeout.
Proof.
  intros timeout func randint retry zero no_attempt negative_base negative_cap huge.
  assert (no_attempt = (Raised TypeError_raise_None, [], tt))
    as -> by (vm_compute; reflexivity).
  assert (negative_base = (Raised ValueError_sleep, [EvCall (Raised timeout)], tt))
    as -> by (vm_compute; reflexivity).
  assert (negative_cap = (Raised ValueError_sleep, [EvCall (Raised timeout)], tt))
    as -> by (vm_compute; reflexivity).
  assert (huge = (Raised OverflowError_sleep, [EvCall (Raised timeout)], tt))
    as -> by (vm_compute; reflexivity).
  split; [vm_compute; split; [reflexivity | lia] |].
  split; [split; [reflexivity |]; split; [reflexivity |];
          cbn [fst snd]; intros H; inversion H |].
  split; [split; [reflexivity |]; split; [reflexivity |];
          cbn [fst snd]; intros H; inversion H |].
  split; [split; [reflexivity |]; split; [reflexivity |];
          cbn [fst snd]; intros H; inversion H |].
  split; [split; [reflexivity |]; split; [reflexivity |];
          cbn [fst snd]; intros H; inversion H |].
  split; vm_compute; congruence.
Qed.

(** C10. A zero passed for [max_retries], [base_delay_ms] or [max_delay_ms]
    gives the run obtained with the argument left out, and that run is the
    one obtained by passing the configured value: the environment variable
    [MAX_RETRIES], [RETRY_BASE_DELAY_MS] or [RETRY_MAX_DELAY_MS] when it is
    set, else 3, 1000 or 5000.  So zero retries cannot be asked for through
    the parameter: when [max_retries = 0] is passed, an operation that
    always fails is still called configured + 1 times (backoff delays that
    are non-negative and accepted by the interpreter being understood). *)
Theorem retry_with_backoff_zero_is_default {W A : Type} (func : W -> outcome A * W)
    (randint : Z -> Z -> W -> Z * W) (sleep_ms : Z -> W -> outcome W)
    (env : Environ) (max_retries base_delay_ms max_delay_ms : option Z) (w : W) :
  let retry := retry_with_backoff func randint sleep_ms env in
  let base_delay := effective_setting base_delay_ms (RETRY_BASE_DELAY_MS env) 1000 in
  let max_delay := effective_setting max_delay_ms (RETRY_MAX_DELAY_MS env) 5000 in
  (retry (Some 0%Z) base_delay_ms max_delay_ms w
   = retry None base_delay_ms max_delay_ms w /\
   retry max_retries (Some 0%Z) max_delay_ms w
   = retry max_retries None max_delay_ms w /\
   retry max_retries base_delay_ms (Some 0%Z) w
   = retry max_retries base_delay_ms None w) /\
  (retry None base_delay_ms max_delay_ms w
   = retry (Some (configured (MAX_RETRIES env) 3)) base_delay_ms max_delay_ms w /\
   retry max_retries None max_delay_ms w
   = retry max_retries (Some (configured (RETRY_BASE_DELAY_MS env) 1000)) max_delay_ms w /\
   retry max_retries base_delay_ms None w
   = retry max_retries base_delay_ms (Some (configured (RETRY_MAX_DELAY_MS env) 5000)) w) /\
  ((forall w, exists e w', func w = (Raised e, w') /\ is_Exception e = true) ->
   (forall w, (0 <= (randint 0 1000 w).1 <= 1000)%Z) ->
   (0 <= base_delay)%Z -> (0 <= max_delay)%Z ->
   (forall d w, (0 <= d <= max_delay)%Z -> exists w', sleep_ms d w = Returned w') ->
   calls (retry (Some 0%Z) base_delay_ms max_delay_ms w).1.2
   = Z.to_nat (configured (MAX_RETRIES env) 3 + 1)).
Proof.
  intros retry base_delay max_delay. subst retry. split; [| split].
  - repeat split.
  - rewrite !retry_with_backoff_effective, !effective_setting_configured.
    by repeat split.
  - intros Hfail Hrand HB HD Hsleep. rewrite retry_with_backoff_effective.
    apply retry_loop_all_fail; try done.
Qed.

(** With [MAX_RETRIES=5] in the environment, zeros passed for the three
    parameters give six calls of an operation that always fails, and the
    delays of the configured base and cap; with nothing set, four calls. *)
Lemma retry_with_backoff_zero_is_default_witness :
  let func := fun _ : unit => (Raised (A := unit) (Exception (u "timeout")), tt) in
  let randint := fun (_ _ : Z) (_ : unit) => (0%Z, tt) in
  let env := {| MAX_RETRIES := Some 5%Z; RETRY_BASE_DELAY_MS := Some 20%Z;
                RETRY_MAX_DELAY_MS := Some 70%Z; CHECKPOINT_INTERVAL := None |} in
  calls (retry_with_backoff func randint bounded_clock env
           (Some 0%Z) (Some 0%Z) (Some 0%Z) tt).1.2 = 6%nat /\
  calls (retry_with_backoff func randint bounded_clock unset_environ
           (Some 0%Z) None None tt).1.2 = 4%nat /\
  List.filter (fun ev => match ev with EvSleep _ => true | _ => false end)
    (retry_with_backoff func randint bounded_clock env
       (Some 0%Z) (Some 0%Z) (Some 0%Z) tt).1.2
  = [EvSleep 20; EvSleep 40; EvSleep 70; EvSleep 70; EvSleep 70].
Proof.
  intros func randint env.
  assert (forall w : unit, exists e w',
            func w = (Raised e, w') /\ is_Exception e = true) as Hfail.
  { intros []. by exists (Exception (u "timeout")), tt. }
  assert (forall w : unit, (0 <= (randint 0 1000 w).1 <= 1000)%Z) as Hrand.
  { intros []. simpl. lia. }
  assert (forall D, (D <= 5000)%Z -> forall d (w : unit), (0 <= d <= D)%Z ->
            exists w', bounded_clock d w = Returned w') as Hclock.
  { intros D HD d w' Hd. exists w'. unfold bounded_clock.
    destruct (Z.ltb_spec (d * 1000000) (2 ^ 63)) as [_ | Hbig]; [reflexivity | lia]. }
  split; [| split].
  - apply (proj2 (proj2 (retry_with_backoff_zero_is_default func randint
             bounded_clock env (Some 0%Z) (Some 0%Z) (Some 0%Z) tt)));
      [exact Hfail | exact Hrand | simpl; lia | simpl; lia |].
    apply Hclock. simpl. lia.
  - apply (proj2 (proj2 (retry_with_backoff_zero_is_default func randint
             bounded_clock unset_environ None None None tt)));
      [exact Hfail | exact Hrand | simpl; lia | simpl; lia |].
    apply Hclock. simpl. lia.
  - vm_compute. reflexivity.
Defined.

(** ** Record models *)

Lemma InjuryRecord_roundtrip (r : InjuryRecord) :
  InjuryRecord_init (InjuryRecord_dump r) = Some r.
Proof. destruct r. vm_compute. reflexivity. Qed.

Lemma PastRunRecord_roundtrip (r : PastRunRecord) :
  PastRunRecord_init (PastRunRecord_dump r) = Some r.
Proof. destruct r. vm_compute. reflexivity. Qed.

Lemma HorseRecord_dump_lookup (r : HorseRecord) :
  HorseRecord_dump r !! u "馬號" = Some (PStr (馬號 r)) /\
  HorseRecord_dump r !! u "馬匹ID" = Some (PStr (馬匹ID r)) /\
  HorseRecord_dump r !! u "馬名" = Some (PStr (馬名 r)) /\
  HorseRecord_dump r !! u "馬匹編號" = Some (PStr (馬匹編號 r)) /\
  HorseRecord_dump r !! u "最近6輪" = Some (PStr (最近6輪 r)) /\
  HorseRecord_dump r !! u "排位" = Some (PStr (排位 r)) /\
  HorseRecord_dump r !! u "負磅" = Some (PStr (負磅 r)) /\
  HorseRecord_dump r !! u "騎師" = Some (PStr (騎師 r)) /\
  HorseRecord_dump r !! u "練馬師" = Some (PStr (練馬師 r)) /\
  HorseRecord_dump r !! u "獨贏" = Some (PStr (獨贏 r)) /\
  HorseRecord_dump r !! u "位置" = Some (PStr (位置 r)) /\
  HorseRecord_dump r !! u "當前評分" = Some (PStr (當前評分 r)) /\
  HorseRecord_dump r !! u "國際評分" = Some (PStr (國際評分 r)) /\
  HorseRecord_dump r !! u "配備" = Some (PStr (配備 r)) /\
  HorseRecord_dump r !! u "讓磅" = Some (PStr (讓磅 r)) /\
  HorseRecord_dump r !! u "練馬師喜好" = Some (PStr (練馬師喜好 r)) /\
  HorseRecord_dump r !! u "馬齡" = Some (PStr (馬齡 r)) /\
  HorseRecord_dump r !! u "傷病記錄" = Some (PList ((fun i => PDict (InjuryRecord_dump i)) <$> 傷病記錄 r)) /\
  HorseRecord_dump r !! u "往績紀錄" = Some (PList ((fun p => PDict (PastRunRecord_dump p)) <$> 往績紀錄 r)) /\
  HorseRecord_dump r !! u "馬匹基本資料" = Some (PStr (馬匹基本資料 r)).
Proof. repeat split; vm_compute; reflexivity. Qed.

Lemma ToplineData_dump_lookup (t : ToplineData) (k : pystr) :
  In k schema_fields ->
  ToplineData_dump t !! k = HorseRecord_dump (topline_fields t) !! k.
Proof.
  intros Hk. simpl in Hk.
  repeat (destruct Hk as [<- | Hk]; [vm_compute; reflexivity |]). done.
Qed.

Ltac solve_In := simpl; repeat first [left; reflexivity | right].

Lemma HorseRecord_init_of_lookups (str_other : PyVal -> pystr) (data : pydict)
    (r : HorseRecord) :
  (forall k, In k schema_fields -> data !! k = HorseRecord_dump r !! k) ->
  HorseRecord_init str_other data = Some r.
Proof.
  intros H. unfold HorseRecord_init, str_field, list_field, field.
  repeat match goal with
         | |- context [data !! ?k] => rewrite (H k) by solve_In
         end.
  destruct (HorseRecord_dump_lookup r)
    as (H1 & H2 & H3 & H4 & H5 & H6 & H7 & H8 & H9 & H10 & H11 & H12 & H13
        & H14 & H15 & H16 & H17 & H18 & H19 & H20).
  rewrite H1, H2, H3, H4, H5, H6, H7, H8, H9, H10, H11, H12, H13, H14, H15,
    H16, H17, H18, H19, H20.
  cbn [convert_to_string py_str validate_str validate_list mbind option_bind].
  rewrite (mapM_fmap_Some validate_InjuryRecord)
    by (intros i; apply InjuryRecord_roundtrip).
  rewrite (mapM_fmap_Some validate_PastRunRecord)
    by (intros i; apply PastRunRecord_roundtrip).
  cbn [mbind option_bind]. by destruct r.
Qed.

Lemma HorseRecord_roundtrip (str_other : PyVal -> pystr) (r : HorseRecord) :
  HorseRecord_init str_other (HorseRecord_dump r) = Some r.
Proof. by apply HorseRecord_init_of_lookups. Qed.

Lemma from_topline_data_fields (str_other : PyVal -> pystr) (t : ToplineData) :
  from_topline_data str_other t = Some (topline_fields t).
Proof.
  apply HorseRecord_init_of_lookups. intros k Hk. by apply ToplineData_dump_lookup.
Qed.

(** ** RecordAssembler *)

Section MergeProofs.

Variable str_other : PyVal -> pystr.

Lemma str_field_coerced (default : pystr) (data : pydict) (name : pystr) :
  match data !! name with Some v => negb (is_container v) | None => true end = true ->
  str_field str_other default data name
  = Some (coerced str_other default (data !! name)).
Proof.
  unfold str_field, field. destruct (data !! name) as [[]|]; simpl; done.
Qed.

Lemma list_field_supplied {T : Type} (validate_item : PyVal -> option T)
    (data : pydict) (name : pystr) (items : list T) :
  list_supplied validate_item (data !! name) items ->
  list_field str_other validate_item data name = Some items.
Proof.
  unfold list_field, field, list_supplied.
  destruct (data !! name) as [[]|]; simpl; try done. by intros ->.
Qed.

Lemma detail_url_field (data : pydict) :
  match data !! u "detail_url" with
  | Some v => negb (is_container v) | None => true end = true ->
  is_Some (field (fun v => validate_optional_str (convert_to_string str_other v))
                 None data (u "detail_url")).
Proof.
  unfold field. destruct (data !! u "detail_url") as [[]|]; simpl; try done; eauto.
Qed.

Lemma HorseRecord_init_merged (data : pydict) (injuries : list InjuryRecord)
    (past_runs : list PastRunRecord) :
  scalars_supplied data = true ->
  list_supplied validate_InjuryRecord (data !! u "傷病記錄") injuries ->
  list_supplied validate_PastRunRecord (data !! u "往績紀錄") past_runs ->
  HorseRecord_init str_other data
  = Some (merged_record str_other data injuries past_runs).
Proof.
  intros Hs Hinj Hruns. unfold scalars_supplied in Hs.
  rewrite forallb_forall in Hs. unfold HorseRecord_init.
  repeat match goal with
         | |- context [str_field str_other ?d data ?k] =>
           rewrite (str_field_coerced d data k) by (apply Hs; solve_In)
         end.
  rewrite (list_field_supplied _ _ _ _ Hinj), (list_field_supplied _ _ _ _ Hruns).
  reflexivity.
Qed.

Lemma schema_fields_present (r : HorseRecord) (k : pystr) :
  is_Some (HorseRecord_dump r !! k) <-> In k schema_fields.
Proof.
  rewrite <- not_eq_None_Some. unfold HorseRecord_dump.
  rewrite <- not_elem_of_list_to_map.
  change ((HorseRecord_items r).*1) with schema_fields.
  rewrite <- list_elem_of_In. split; [apply dec_stable | auto].
Qed.

End MergeProofs.

(** C6 (amended). Provided no scalar field is supplied a list or a dict and
    each list field is absent or supplied a list of valid items, the merge
    starts from topline, overlays every key of detail (detail wins), and
    yields the record in which every scalar field is the coerced supplied
    value: the empty string for [None], the string itself, the text [str]
    gives for any other scalar; an absent scalar field takes its declared
    default, which is the empty string except for 練馬師喜好, whose default is
    "1"; the list fields hold the supplied records, unchanged when they are
    model instances; and every schema field is a key of the dumped record. *)
Theorem merge_overlay_then_coerce (str_other : PyVal -> pystr)
    (topline detail : pydict) (injuries : list InjuryRecord)
    (past_runs : list PastRunRecord)
    (Hscalars : scalars_supplied (merged_data topline detail) = true)
    (Hinjuries : list_supplied validate_InjuryRecord
                   (merged_data topline detail !! u "傷病記錄") injuries)
    (Hpast_runs : list_supplied validate_PastRunRecord
                    (merged_data topline detail !! u "往績紀錄") past_runs) :
  (forall k, merged_data topline detail !! k
             = match detail !! k with Some v => Some v | None => topline !! k end) /\
  merge str_other topline detail
  = Some (merged_record str_other (merged_data topline detail) injuries past_runs) /\
  (forall default s,
      coerced str_other default None = default /\
      coerced str_other default (Some PNone) = [] /\
      coerced str_other default (Some (PStr s)) = s /\
      coerced str_other default (Some (PInt 1)) = u "1" /\
      coerced str_other default (Some (PFloat 85.5)) = str_other (PFloat 85.5)) /\
  (forall rs, mapM validate_InjuryRecord
                   ((fun r => PModel (MInjuryRecord r)) <$> rs) = Some rs) /\
  (forall rs, mapM validate_PastRunRecord
                   ((fun r => PModel (MPastRunRecord r)) <$> rs) = Some rs) /\
  (forall r k, is_Some (HorseRecord_dump r !! k) <-> In k schema_fields).
Proof.
  split; [| split; [| split; [| split; [| split]]]].
  - intros k. unfold merged_data. rewrite lookup_union.
    destruct (detail !! k), (topline !! k); done.
  - unfold merge, from_topline_and_detail, ToplineData_init.
    rewrite (HorseRecord_init_merged _ _ injuries past_runs) by done.
    cbn [mbind option_bind].
    destruct (detail_url_field str_other (merged_data topline detail)) as [url ->].
    { unfold scalars_supplied in Hscalars. rewrite forallb_forall in Hscalars.
      apply Hscalars. solve_In. }
    cbn [mbind option_bind]. by rewrite from_topline_data_fields.
  - intros default s. repeat split.
  - intros rs. by apply mapM_fmap_Some.
  - intros rs. by apply mapM_fmap_Some.
  - apply schema_fields_present.
Qed.

(** The keywords of the coercion test, with the text of the float supplied. *)
Lemma merge_overlay_then_coerce_witness :
  let str_other := fun v => match v with PFloat _ => u "85.5" | _ => [] end in
  let topline : pydict :=
    {[ u "馬號" := PInt 1; u "當前評分" := PFloat 85.5; u "馬名" := PNone ]} in
  let detail : pydict :=
    {[ u "馬名" := PStr (u "Test Horse");
       u "傷病記錄" := PList [PModel (MInjuryRecord {| date := u "2025-01-01";
                                                    description := u "lame" |})] ]} in
  (馬號 <$> merge str_other topline detail) = Some (u "1") /\
  (當前評分 <$> merge str_other topline detail) = Some (u "85.5") /\
  (馬名 <$> merge str_other topline detail) = Some (u "Test Horse") /\
  (傷病記錄 <$> merge str_other topline detail)
  = Some [{| date := u "2025-01-01"; description := u "lame" |}].
Proof.
  intros str_other topline detail.
  destruct (merge_overlay_then_coerce str_other topline detail
              [{| date := u "2025-01-01"; description := u "lame" |}] [])
    as (_ & -> & _).
  - vm_compute. reflexivity.
  - vm_compute. reflexivity.
  - vm_compute. reflexivity.
  - vm_compute. repeat split; reflexivity.
Defined.

(** C6, as stated, fails for an absent 練馬師喜好: the merge of two empty maps
    yields "1" for it, not the empty string. *)
Lemma merge_absent_default_counterexample :
  (練馬師喜好 <$> merge (fun _ => []) ∅ ∅) = Some (u "1") /\ u "1" <> [].
Proof. vm_compute. split; [reflexivity | discriminate]. Qed.

(** ** CheckpointStore *)

Lemma load_after_save (str_other : PyVal -> pystr) (data : list HorseRecord)
    (path : pystr) (fs : FileSystem) :
  fs_fails fs path = false ->
  save_checkpoint data path fs
  = ({| fs_files := <[path := dump_records data]> (fs_files fs);
        fs_fails := fs_fails fs |}, INFO) /\
  load_checkpoint str_other path (save_checkpoint data path fs).1 = (data, INFO).
Proof.
  intros Hok. unfold save_checkpoint, write_json. rewrite Hok. split; [done |].
  unfold load_checkpoint, path_exists, read_json. simpl.
  rewrite lookup_insert_eq, Hok.
  rewrite bool_decide_eq_true_2 by eauto. simpl.
  unfold HorseRecord_of.
  rewrite (mapM_fmap_Some _ (fun record => PDict (HorseRecord_dump record))); [done |].
  intros r. apply HorseRecord_roundtrip.
Qed.

(** C7. When the checkpoint file can be written and read, saving a list of
    records and loading it back yields the same list: the same number of
    records, in the same order, with the same field values. *)
Theorem checkpoint_round_trip (str_other : PyVal -> pystr)
    (data : list HorseRecord) (checkpoint_path : pystr) (fs : FileSystem)
    (Hok : fs_fails fs checkpoint_path = false) :
  let saved := save_checkpoint data checkpoint_path fs in
  let loaded := load_checkpoint str_other checkpoint_path saved.1 in
  saved.2 = INFO /\ loaded.2 = INFO /\ length loaded.1 = length data /\
  loaded.1 = data.
Proof.
  intros saved loaded. subst saved loaded.
  destruct (load_after_save str_other data checkpoint_path fs Hok) as [Hsave Hload].
  rewrite Hload, Hsave. by simpl.
Qed.

Lemma checkpoint_round_trip_witness :
  let str_other := fun _ : PyVal => [] in
  let fs := {| fs_files := ∅; fs_fails := fun _ => false |} in
  let injury := {| date := u "2025-01-01"; description := u "lame" |} in
  let first := merged_record str_other {[ u "馬名" := PStr (u "友得盈") ]} [injury] [] in
  let second := merged_record str_other {[ u "馬號" := PInt 2 ]} [] [] in
  (load_checkpoint str_other (u "cp.json")
     (save_checkpoint [first; second] (u "cp.json") fs).1).1 = [first; second].
Proof.
  intros str_other fs injury first second.
  by apply (checkpoint_round_trip str_other [first; second] (u "cp.json") fs).
Defined.

(** ** CrawlOrchestrator: exit status *)

Section MainProofs.

Variable str_other : PyVal -> pystr.
Variable validate_date_format : pystr -> bool.
Variable str_upper : pystr -> pystr.

Lemma save_final_output_swallows (data : list HorseRecord) (path : pystr)
    (fs : FileSystem) :
  fs_fails fs path = true -> save_final_output data path fs = (fs, ERROR).
Proof. intros H. unfold save_final_output, write_json. by rewrite H. Qed.

Lemma save_checkpoint_swallows (data : list HorseRecord) (path : pystr)
    (fs : FileSystem) :
  fs_fails fs path = true -> save_checkpoint data path fs = (fs, ERROR).
Proof. intros H. unfold save_checkpoint, write_json. by rewrite H. Qed.

Lemma resume_one (horse : HorseRecord) :
  ToplineData_init str_other (<[u "detail_url" := PNone]> (HorseRecord_dump horse))
  = Some {| topline_fields := horse; detail_url := Some [] |}.
Proof.
  unfold ToplineData_init.
  rewrite (HorseRecord_init_of_lookups str_other _ horse).
  - unfold field. by rewrite lookup_insert_eq.
  - intros k Hk. apply lookup_insert_ne. intros <-. simpl in Hk.
    repeat (destruct Hk as [Hk | Hk]; [vm_compute in Hk; discriminate |]). done.
Qed.

Lemma resume_topline_total (horses : list HorseRecord) :
  is_Some (resume_topline str_other horses).
Proof.
  unfold resume_topline. apply mapM_is_Some, Forall_forall.
  intros horse _. unfold compose. rewrite resume_one. eauto.
Qed.

Lemma horse_loop_not_fatal (config : Config) (checkpoint : option pystr)
    (scrapers : Scrapers) (i : nat) (topline_data : list ToplineData)
    (st : list HorseRecord * FileSystem) :
  (forall i url e, scrape_horse_details scrapers i url = Raised e ->
                   is_Exception e = true) ->
  (horse_loop str_other config checkpoint scrapers i topline_data st).2 = None.
Proof.
  intros Hdetails. revert i st.
  induction topline_data as [|horse_data rest IH]; intros i st; [done |].
  simpl.
  assert (forall e, (process_horse str_other config checkpoint scrapers i horse_data st).2
                    = Some e -> is_Exception e = true) as Hraised.
  { intros e. unfold process_horse. destruct st as [horses fs].
    destruct (given checkpoint && has_details horses i); [done |].
    unfold scrape_one. destruct (detail_url horse_data) as [url|].
    - destruct (truthy url).
      + destruct (scrape_horse_details scrapers i url) as [details|e'] eqn:Hs.
        * destruct (HorseRecord_init _ _); simpl.
          -- unfold maybe_checkpoint. destruct checkpoint as [path|]; [| done].
             destruct (truthy path); [| done].
             destruct (_ =? 0)%Z; [by intros [= <-] |].
             destruct (_ =? 0)%Z; done.
          -- by intros [= <-].
        * simpl. intros [= <-]. by eapply Hdetails.
      + unfold maybe_checkpoint. destruct checkpoint as [path|]; [| done].
        destruct (truthy path); [| done].
        destruct (_ =? 0)%Z; [by intros [= <-] |].
        destruct (_ =? 0)%Z; done.
    - unfold maybe_checkpoint. destruct checkpoint as [path|]; [| done].
      destruct (truthy path); [| done].
      destruct (_ =? 0)%Z; [by intros [= <-] |].
      destruct (_ =? 0)%Z; done. }
  destruct (process_horse _ _ _ _ _ _ _) as [st' [e|]]; [| apply IH].
  rewrite (Hraised e) by done. apply IH.
Qed.

Lemma crawl_not_fatal (args : Args) (scrapers : Scrapers) (config : Config)
    (fs : FileSystem) (topline_data : list ToplineData) :
  launch scrapers = None -> browser_close scrapers = None ->
  scrape_race scrapers = Returned topline_data ->
  (forall i url e, scrape_horse_details scrapers i url = Raised e ->
                   is_Exception e = true) ->
  (crawl str_other args scrapers config fs).2 = None.
Proof.
  intros Hlaunch Hclose Hrace Hdetails. unfold crawl. rewrite Hlaunch, Hclose.
  set (horses := match arg_checkpoint args with Some _ => _ | None => _ end).
  assert (exists topline,
    match horses with
    | [] => scrape_race scrapers
    | _ :: _ => match resume_topline str_other horses with
                | Some t => Returned t | None => Raised ValidationError end
    end = Returned topline) as [topline ->].
  { destruct horses as [|h hs] eqn:E; [eauto |].
    destruct (resume_topline_total (h :: hs)) as [t ->]. eauto. }
  pose proof (horse_loop_not_fatal config (arg_checkpoint args) scrapers 0
                topline (horses, fs) Hdetails) as Hloop.
  destruct (horse_loop _ _ _ _ _ _ _) as [[horses' fs'] raised]. simpl in Hloop.
  by subst raised.
Qed.

Lemma crawl_race_card_fatal (args : Args) (scrapers : Scrapers) (config : Config)
    (fs : FileSystem) (e : exn) :
  arg_checkpoint args = None ->
  launch scrapers = None -> browser_close scrapers = None ->
  scrape_race scrapers = Raised e ->
  crawl str_other args scrapers config fs = ([], fs, Some e).
Proof.
  intros Hcp Hlaunch Hclose Hrace. unfold crawl.
  by rewrite Hcp, Hlaunch, Hclose, Hrace.
Qed.

End MainProofs.

(** C9 (amended). A failed write of the final output or of a checkpoint is
    logged at level ERROR by [save_final_output] and [save_checkpoint],
    which return normally and leave the file system as it was; it does not
    end the crawl.  Take a run whose command line click accepts, whose
    date, course and race number are valid, whose browser starts and
    closes, and whose detail scrapes raise nothing but [Exception]s.  When
    the race-card scrape returns, the run ends with exit status 0 whatever
    the file system refuses to write.  What is fatal is the race-card
    scrape: when it raises an [Exception] (no checkpoint being given), the
    run ends with exit status 1. *)
Theorem main_exit_status_ignores_failed_writes (str_other : PyVal -> pystr)
    (validate_date_format : pystr -> bool) (str_upper str_casefold : pystr -> pystr)
    (int_of_text : pystr -> option Z)
    (cmd : CommandLine) (args : Args) (scrapers : Scrapers) (env : Environ)
    (fs : FileSystem)
    (Hclick : click_parse str_casefold int_of_text cmd = Some args)
    (Hdate : validate_date_format (arg_date args) = true)
    (Hcourse : validate_course str_upper (arg_course args) = true)
    (Hraceno : validate_race_number (arg_raceno args) = true)
    (Hlaunch : launch scrapers = None)
    (Hclose : browser_close scrapers = None)
    (Hdetails : forall i url e, scrape_horse_details scrapers i url = Raised e ->
                                is_Exception e = true) :
  let run := main str_other validate_date_format str_upper str_casefold int_of_text
                  cmd scrapers env fs in
  (forall topline_data, scrape_race scrapers = Returned topline_data -> run.1 = 0%Z) /\
  (forall e, opt_checkpoint cmd = None -> scrape_race scrapers = Raised e ->
             is_Exception e = true -> run.1 = 1%Z) /\
  (forall data path, fs_fails fs path = true ->
     save_final_output data path fs = (fs, ERROR) /\
     save_checkpoint data path fs = (fs, ERROR)).
Proof.
  intros run. subst run. unfold main. rewrite Hclick.
  unfold main_body. rewrite Hdate, Hcourse, Hraceno. simpl.
  split; [| split].
  - intros topline_data Hrace.
    pose proof (crawl_not_fatal str_other args scrapers (get_config env) fs
                  topline_data Hlaunch Hclose Hrace Hdetails) as Hcrawl.
    destruct (crawl _ _ _ _ _) as [[horses fs'] raised]. simpl in Hcrawl.
    by subst raised.
  - intros e Hcp Hrace He.
    assert (arg_checkpoint args = None) as Hcp'.
    { unfold click_parse in Hclick.
      destruct (click_Choice _ _ _ _) as [course|]; [| done]. simpl in Hclick.
      destruct (int_of_text (opt_raceno cmd)) as [raceno|]; [| done]. simpl in Hclick.
      destruct (match opt_max_retries cmd with Some _ => _ | None => _ end);
        [| done]. simpl in Hclick.
      destruct (match opt_log_level cmd with Some _ => _ | None => _ end);
        [| done]. simpl in Hclick.
      injection Hclick as <-. exact Hcp. }
    rewrite (crawl_race_card_fatal str_other args scrapers (get_config env) fs e)
      by done.
    rewrite Hcp'. by destruct e.
  - intros data path Hfail. split.
    + by apply save_final_output_swallows.
    + by apply save_checkpoint_swallows.
Qed.

Lemma main_exit_status_ignores_failed_writes_witness :
  let str_other := fun _ : PyVal => [] in
  let cmd := {| opt_date := u "2025/09/17"; opt_course := u "HV"; opt_raceno := u "1";
                opt_out := u "out.json"; opt_checkpoint := Some (u "cp.json");
                opt_max_retries := None; opt_log_level := Some (u "DEBUG") |} in
  let entrant := {| topline_fields := merged_record str_other ∅ [] [];
                    detail_url := Some (u "/racing/Horse.aspx?HorseId=HK_2024_K106") |} in
  let scrapers := {| launch := None; scrape_race := Returned [entrant; entrant];
                     scrape_horse_details := fun _ _ => Returned ∅;
                     browser_close := None |} in
  let fs := {| fs_files := ∅; fs_fails := fun _ => true |} in
  (main str_other (fun _ => true) (fun s => s) (fun s => s) sample_int_of_text
        cmd scrapers unset_environ fs).1 = 0%Z.
Proof.
  intros str_other cmd entrant scrapers fs.
  apply (proj1 (main_exit_status_ignores_failed_writes str_other (fun _ => true)
                  (fun s => s) (fun s => s) sample_int_of_text cmd
                  {| arg_date := u "2025/09/17"; arg_course := u "HV"; arg_raceno := 1;
                     arg_out := u "out.json"; arg_checkpoint := Some (u "cp.json") |}
                  scrapers unset_environ fs
                  ltac:(vm_compute; reflexivity) ltac:(reflexivity)
                  ltac:(vm_compute; reflexivity) ltac:(reflexivity)
                  ltac:(reflexivity) ltac:(reflexivity)
                  ltac:(intros i url e; discriminate))
               [entrant; entrant]).
  reflexivity.
Defined.

(** C9, as stated, fails: with a file system that refuses every write, the
    checkpoint after the second entrant and the final output are not
    written, and the run still ends with exit status 0. *)
Lemma main_failed_write_exit_status_counterexample :
  let str_other := fun _ : PyVal => [] in
  let cmd := {| opt_date := u "2025/09/17"; opt_course := u "HV"; opt_raceno := u "1";
                opt_out := u "out.json"; opt_checkpoint := Some (u "cp.json");
                opt_max_retries := None; opt_log_level := None |} in
  let entrant := {| topline_fields := merged_record str_other ∅ [] [];
                    detail_url := Some (u "/racing/Horse.aspx?HorseId=HK_2024_K106") |} in
  let scrapers := {| launch := None; scrape_race := Returned [entrant; entrant];
                     scrape_horse_details := fun _ _ => Returned ∅;
                     browser_close := None |} in
  let fs := {| fs_files := ∅; fs_fails := fun _ => true |} in
  let run := main str_other (fun _ => true) (fun s => s) (fun s => s)
                  sample_int_of_text cmd scrapers unset_environ fs in
  fs_fails fs (u "out.json") = true /\
  run.1 = 0%Z /\
  fs_files run.2 !! u "out.json" = None /\
  fs_files run.2 !! u "cp.json" = None.
Proof. vm_compute. repeat split; reflexivity. Qed.

(** A course that is neither HV nor ST, in any case, is refused by click:
    exit status 2, whatever the date; a date that does not parse is
    refused by the body: exit status 1. *)
Lemma main_usage_error_exit_status (str_other : PyVal -> pystr)
    (scrapers : Scrapers) (env : Environ) (fs : FileSystem) :
  let cmd := fun date course =>
    {| opt_date := date; opt_course := course; opt_raceno := u "1";
       opt_out := u "out.json"; opt_checkpoint := None;
       opt_max_retries := None; opt_log_level := None |} in
  let main := main str_other (fun date => bool_decide (date = u "2025/09/17"))
                   (fun s => s) (fun s => s) sample_int_of_text in
  main (cmd (u "2025/09/17") (u "XX")) scrapers env fs = (2%Z, fs) /\
  main (cmd (u "17-09-2025") (u "XX")) scrapers env fs = (2%Z, fs) /\
  main (cmd (u "17-09-2025") (u "ST")) scrapers env fs = (1%Z, fs).
Proof. repeat split. Qed.

(** ** Past runs *)

Lemma omap_length_le {A B : Type} (f : A -> option B) (l : list A) :
  (length (omap f l) <= length l)%nat.
Proof.
  induction l as [|x l IH]; csimpl; [done |]. destruct (f x); simpl; lia.
Qed.

(** One table appends at most six records. *)
Lemma scan_table_appends_at_most_six (past_runs : list PastRunRecord) (table : Table) :
  (length (scan_table past_runs table).1 <= length past_runs + 6)%nat.
Proof.
  assert (forall (f : list Element -> option PastRunRecord) l,
             (length (past_runs ++ omap f (take 6 l)) <= length past_runs + 6)%nat)
    as Hsix.
  { intros f l. rewrite length_app.
    pose proof (omap_length_le f (take 6 l)) as H. rewrite length_take in H. lia. }
  unfold scan_table. destruct (length (table_tr table) <? 2)%nat; [simpl; lia |].
  destruct (table_tr table) as [|header_row rows]; [simpl; lia |].
  cbv zeta. destruct (8 <=? _)%nat; [apply Hsix |].
  destruct (3 <=? _)%nat; [apply Hsix | simpl; lia].
Qed.

(** The text fallback yields at most six records. *)
Lemma profile_text_at_most_six (findall_race_pattern : pystr -> list (pystr * pystr))
    (page : Page) :
  (length (_parse_past_runs_from_profile_text findall_race_pattern page) <= 6)%nat.
Proof.
  unfold _parse_past_runs_from_profile_text.
  destruct (page_inner_text page); simpl; [| lia].
  rewrite length_fmap, length_drop. lia.
Qed.

(** C2 (the code at a failing input). A detail page with two comprehensive
    tables, each with six data rows, yields twelve past-run records: the
    comprehensive branch appends its rows and goes on to the next table. *)
Theorem past_runs_two_comprehensive_tables
    (findall_race_pattern : pystr -> list (pystr * pystr)) :
  let header_row := text_cell <$>
    [u "場次"; u "名次"; u "日期"; u "馬場"; u "途程"; u "場地狀況"; u "賽事班次";
     u "檔位"; u "評分"; u "練馬師"] in
  let data_row := text_cell <$>
    [u "843"; u "06"; u "01/01/24"; u "沙田"; u "1200"; u "好"; u "4"; u "5";
     u "60"; u "某"] in
  let table := {| table_th := []; table_tr := header_row :: replicate 6 data_row |} in
  let page := {| query_tables := fun _ => Some [table; table];
                 query_element := fun _ => None;
                 title := None; page_inner_text := None |} in
  count_indicators comprehensive_indicators (cell_text <$> header_row) = 10%nat /\
  length (_scrape_past_runs_from_main_page findall_race_pattern page) = 12%nat.
Proof. intros. vm_compute. split; reflexivity. Qed.

(** ** Injuries *)

Lemma new_InjuryRecord_drops_pass_date (date description pass_date : pystr) :
  new_InjuryRecord date description pass_date
  = Some {| date := date; description := description |}.
Proof. vm_compute. reflexivity. Qed.

(** C8 (the code at a failing input). The owning row of the veterinary
    table carries a date, a description and a pass date; the record built
    from it holds the date and the description only, and the result is the
    same whether the pass-date cell holds a date or the placeholder "-". *)
Theorem injuries_pass_date_not_recorded (isdigit : pystr -> bool) :
  let page := {| query_tables := fun _ => Some [];
                 query_element := fun sel =>
                   if bool_decide (sel = u "h1")
                   then Some (Some (text_cell (u "友得盈"))) else Some None;
                 title := None; page_inner_text := None |} in
  let header := text_cell <$> [u "烙印編號"; u "馬名"; u "日期"; u "詳情"; u "通過日期"] in
  let row := fun pass_date => text_cell <$>
    [u "K106"; u "友得盈"; u "01/02/2024"; u "左前腿不良於行"; pass_date] in
  let vet := fun pass_date =>
    Some {| query_tables := fun _ =>
              Some [{| table_th := []; table_tr := [header; row pass_date] |}];
            query_element := fun _ => Some None;
            title := None; page_inner_text := None |} in
  _scrape_injuries_from_separate_page isdigit page (vet (u "15/02/2024"))
  = [{| date := u "01/02/2024"; description := u "左前腿不良於行" |}] /\
  _scrape_injuries_from_separate_page isdigit page (vet (u "-"))
  = [{| date := u "01/02/2024"; description := u "左前腿不良於行" |}] /\
  (forall date description pass_date,
     new_InjuryRecord date description pass_date
     = Some {| date := date; description := description |}).
Proof.
  intros. split; [| split].
  - vm_compute. reflexivity.
  - vm_compute. reflexivity.
  - apply new_InjuryRecord_drops_pass_date.
Qed.
